(** * Asset ingestion and deletion: the [AssetController] of the immich server

    A shallow embedding of [uploadFile] and [deleteAsset] from
    [server/apps/immich/src/api-v1/asset/asset.controller.ts].

    The controller is written against injected collaborators (the asset
    service, the background-task service, the bull queue, the logger and the
    express response).  Each awaited call on a collaborator is a node of a
    finite interaction tree; an environment answers the calls, and running a
    request yields its outcome together with the trace of calls and answers. *)

From stdpp Require Import base option list strings infinite gmap.
From Stdlib Require Import Strings.Byte.

Set Default Proof Using "Type".
Open Scope string_scope.

(** ** Exceptions and awaited results *)

(** The classes of rejection the handler can observe.  [Error] stands for any
    JavaScript error that is neither TypeORM's [QueryFailedError] nor Nest's
    [BadRequestException] (an I/O error of the hasher, [EntityNotFoundError],
    a Redis failure, ...). *)
Record JsError := { name : string; message : string }.

Inductive exn : Type :=
| QueryFailedError (constraint : option string) (message : string)
| BadRequestException (message : string) (description : string)
| Error (e : JsError).

(** A settled promise. *)
Inductive result (A : Type) : Type :=
| Ok (a : A)
| Throw (e : exn).
Arguments Ok {A} a.
Arguments Throw {A} e.

(** [Error.prototype.toString]: the name alone when the message is empty,
    the message alone when the name is empty, and otherwise the name, a colon
    and the message. *)
Definition error_toString (name message : string) : string :=
  if String.eqb name "" then message
  else if String.eqb message "" then name
  else name ++ ": " ++ message.

(** Template-literal conversion of a caught value, [`${err}`]. *)
Definition exn_to_string (e : exn) : string :=
  match e with
  | QueryFailedError _ m => error_toString "QueryFailedError" m
  | BadRequestException m _ => error_toString "BadRequestException" m
  | Error e => error_toString (name e) (message e)
  end.

(** [err instanceof QueryFailedError && err.constraint === 'UQ_userid_checksum'] *)
Definition is_unique_violation (err : exn) : bool :=
  match err with
  | QueryFailedError (Some c) _ => String.eqb c "UQ_userid_checksum"
  | _ => false
  end.

(** ** Data transfer objects and entities *)

(** A SHA digest as a byte buffer. *)
Definition Checksum : Type := list byte.

#[global] Instance byte_eq_decision : EqDecision byte := Byte.byte_eq_dec.

(** The field of the authenticated user the controller reads. *)
Module AuthUserDto.
Record t := mk { id : string }.
End AuthUserDto.

(** The fields of [Express.Multer.File] the handler reads. *)
Module File.
Record t := mk { path : string; mimetype : string; originalname : string }.
End File.

(** Modelled from the spec: [dto/create-asset.dto] is not among the sources;
    the upload carries an optional device identifier and capture timestamp
    (section 6), which the controller only forwards. *)
Module CreateAssetDto.
Record t := mk { deviceAssetId : string; deviceId : string; createdAt : string }.
End CreateAssetDto.

(** Modelled from the spec: the entity's declaration is not among the
    sources; section 3 lists identity, owner, digest, filename-independent
    storage path, MIME type and device identifier. *)
Module AssetEntity.
Record t := mk {
  id : string;
  userId : string;
  deviceAssetId : string;
  deviceId : string;
  originalPath : string;
  mimeType : string;
  checksum : Checksum }.
End AssetEntity.

(** [new AssetFileUploadResponseDto(id)] *)
Module AssetFileUploadResponseDto.
Record t := mk { id : string }.
End AssetFileUploadResponseDto.

(** The payload of the asset-uploaded job: [{ asset, fileName }]. *)
Module IAssetUploadedJob.
Record t := mk { asset : AssetEntity.t; fileName : string }.
End IAssetUploadedJob.

(** [{ originalPath: file.path } as any]: an object that only simulates an
    asset so that the delete queue can be used for an uploaded file. *)
Module SimulatedAsset.
Record t := mk { originalPath : string }.
End SimulatedAsset.

(** Modelled from the spec: [response-dto/asset-response.dto] is not among
    the sources.  The controller reads [id]; the owner and the storage path
    of the backing file follow section 3. *)
Module AssetResponseDto.
Record t := mk { id : string; ownerId : string; originalPath : string }.
End AssetResponseDto.

(** Modelled from the spec: the enum's declaration is not among the sources.
    The controller names [SUCCESS]; section 6 gives the per-ID statuses
    Success, NotFound and Forbidden. *)
Inductive DeleteAssetStatusEnum : Type := SUCCESS | NOT_FOUND | FORBIDDEN.

#[global] Instance DeleteAssetStatusEnum_eq_dec : EqDecision DeleteAssetStatusEnum.
Proof. solve_decision. Defined.

Module DeleteAssetResponseDto.
Record t := mk { id : string; status : DeleteAssetStatusEnum }.
End DeleteAssetResponseDto.

Module DeleteAssetDto.
Record t := mk { ids : list string }.
End DeleteAssetDto.

(** ** Programs over collaborator calls *)

(** A handler body: it returns, throws, or awaits a collaborator and goes on
    with the answer. *)
Inductive prog (E : Type -> Type) (A : Type) : Type :=
| Ret (a : A)
| Raise (e : exn)
| Call {X : Type} (c : E X) (k : X -> prog E A).
Arguments Ret {E A} a.
Arguments Raise {E A} e.
Arguments Call {E A X} c k.

Fixpoint bind {E A B} (p : prog E A) (f : A -> prog E B) : prog E B :=
  match p with
  | Ret a => f a
  | Raise e => Raise e
  | Call c k => Call c (fun x => bind (k x) f)
  end.

(** [try { p } catch (err) { h err }] *)
Fixpoint try_catch {E A} (p : prog E A) (h : exn -> prog E A) : prog E A :=
  match p with
  | Ret a => Ret a
  | Raise e => h e
  | Call c k => Call c (fun x => try_catch (k x) h)
  end.

(** [await c] for a call whose promise may reject. *)
Definition await {E X} (c : E (result X)) : prog E X :=
  Call c (fun r => match r with Ok x => Ret x | Throw e => Raise e end).

(** A call that cannot reject. *)
Definition perform {E X} (c : E X) : prog E X := Call c Ret.

(** [await c] for a call on a bull queue: [None] is a resolved promise, and a
    rejection carries the queue's own error. *)
Definition awaitQueue {E : Type -> Type} (c : E (option JsError)) : prog E unit :=
  Call c (fun r => match r with None => Ret tt | Some e => Raise (Error e) end).

#[global] Instance prog_ret {E} : MRet (prog E) := fun A a => Ret a.
#[global] Instance prog_bind {E} : MBind (prog E) := fun A B f p => bind p f.

(** One observed step: the call and the answer the environment gave. *)
Inductive event (E : Type -> Type) : Type :=
| Ev {X : Type} (c : E X) (x : X).
Arguments Ev {E X} c x.

Section Run.
Context {E : Type -> Type} {St : Type}.

(** An environment answers every call, possibly changing its state. *)
Definition handler : Type := forall X, E X -> St -> X * St.

Fixpoint run {A} (h : handler) (p : prog E A) (s : St)
  : result A * St * list (event E) :=
  match p with
  | Ret a => (Ok a, s, [])
  | Raise e => (Throw e, s, [])
  | Call c k =>
      let '(x, s1) := h _ c s in
      let '(r, s2, tr) := run h (k x) s1 in
      (r, s2, Ev c x :: tr)
  end.

Definition outcome {A} (r : result A * St * list (event E)) : result A := r.1.1.
Definition final {A} (r : result A * St * list (event E)) : St := r.1.2.
Definition trace {A} (r : result A * St * list (event E)) : list (event E) := r.2.
End Run.

(** ** The upload endpoint *)

Module Upload.
(** The collaborators [uploadFile] awaits: the asset service, the
    asset-uploaded queue, the background-task service, the express response
    and the logger.  The asset-uploaded queue and the delete queue behind the
    background-task service are bull queues: they reject with their own
    (Redis, connection) errors, never with TypeORM's [QueryFailedError];
    [None] is a resolved promise. *)
Inductive call : Type -> Type :=
| CalculateChecksum (filePath : string) : call (result Checksum)
| CreateUserAsset (authUser : AuthUserDto.t) (assetInfo : CreateAssetDto.t)
    (originalPath mimeType : string) (checksum : Checksum)
    : call (result (option AssetEntity.t))
| GetAssetByChecksum (userId : string) (checksum : Checksum)
    : call (result AssetEntity.t)
| QueueAdd (jobName : string) (data : IAssetUploadedJob.t) (jobId : string)
    : call (option JsError)
| DeleteFileOnDisk (assets : list SimulatedAsset.t) : call (option JsError)
| ResStatus (code : nat) : call unit
| LoggerError (msg : string) : call unit.
End Upload.

Section UploadFile.
Import Upload.

(** The job name is a constant of [@app/job], which is not among the
    sources; the controller is read for any value of it. *)
Variable assetUploadedProcessorName : string.

Definition uploadFile (authUser : AuthUserDto.t) (file : File.t)
    (assetInfo : CreateAssetDto.t) : prog call AssetFileUploadResponseDto.t :=
  checksum ← await (CalculateChecksum (File.path file));
  try_catch
    (savedAsset ← await (CreateUserAsset authUser assetInfo
                           (File.path file) (File.mimetype file) checksum);
     match savedAsset with
     | None =>
         awaitQueue (DeleteFileOnDisk [SimulatedAsset.mk (File.path file)]);;
         (* Nest's default description when none is given *)
         Raise (BadRequestException "Asset not created" "Bad Request")
     | Some savedAsset =>
         awaitQueue (QueueAdd assetUploadedProcessorName
                     (IAssetUploadedJob.mk savedAsset (File.originalname file))
                     (AssetEntity.id savedAsset));;
         Ret (AssetFileUploadResponseDto.mk (AssetEntity.id savedAsset))
     end)
    (fun err =>
       awaitQueue (DeleteFileOnDisk [SimulatedAsset.mk (File.path file)]);;
       if is_unique_violation err then
         existedAsset ← await (GetAssetByChecksum (AuthUserDto.id authUser) checksum);
         perform (ResStatus 200);;
         Ret (AssetFileUploadResponseDto.mk (AssetEntity.id existedAsset))
       else
         perform (LoggerError ("Error uploading file " ++ exn_to_string err));;
         Raise (BadRequestException "Error uploading file" (exn_to_string err))).

End UploadFile.

(** ** What a trace of an upload shows *)

Section UploadTrace.
Import Upload.

(** The answer of the content hasher. *)
Definition hash_outcome (ev : event call) : option (result Checksum) :=
  match ev with
  | Ev c x =>
      match c in call X return X -> option (result Checksum) with
      | CalculateChecksum _ => fun x => Some x
      | _ => fun _ => None
      end x
  end.

(** The answer of the insert. *)
Definition insert_outcome (ev : event call) : option (result (option AssetEntity.t)) :=
  match ev with
  | Ev c x =>
      match c in call X return X -> option (result (option AssetEntity.t)) with
      | CreateUserAsset _ _ _ _ _ => fun x => Some x
      | _ => fun _ => None
      end x
  end.

(** The answer of the read-back by owner and checksum. *)
Definition lookup_outcome (ev : event call) : option (result AssetEntity.t) :=
  match ev with
  | Ev c x =>
      match c in call X return X -> option (result AssetEntity.t) with
      | GetAssetByChecksum _ _ => fun x => Some x
      | _ => fun _ => None
      end x
  end.

(** The answer of the queue to a submission. *)
Definition add_outcome (ev : event call) : option (option JsError) :=
  match ev with
  | Ev c x =>
      match c in call X return X -> option (option JsError) with
      | QueueAdd _ _ _ => fun x => Some x
      | _ => fun _ => None
      end x
  end.

Record submission := { sub_name : string; sub_data : IAssetUploadedJob.t; sub_jobId : string }.

(** A job handed to the asset-uploaded queue. *)
Definition submitted (ev : event call) : option submission :=
  match ev with
  | Ev (QueueAdd n d j) _ => Some {| sub_name := n; sub_data := d; sub_jobId := j |}
  | _ => None
  end.

(** The files of one request to the background delete queue. *)
Definition cleanup_request (ev : event call) : option (list string) :=
  match ev with
  | Ev (DeleteFileOnDisk assets) _ => Some (SimulatedAsset.originalPath <$> assets)
  | _ => None
  end.

(** The answer of the delete queue to a hand-over. *)
Definition cleanup_outcome (ev : event call) : option (option JsError) :=
  match ev with
  | Ev c x =>
      match c in call X return X -> option (option JsError) with
      | DeleteFileOnDisk _ => fun x => Some x
      | _ => fun _ => None
      end x
  end.

(** A hand-over the delete queue rejected. *)
Definition cleanup_rejection (ev : event call) : option JsError :=
  match cleanup_outcome ev with
  | Some (Some e) => Some e
  | _ => None
  end.

(** The files of a hand-over the delete queue accepted. *)
Definition cleanup_accepted (ev : event call) : option (list string) :=
  match cleanup_outcome ev with
  | Some None => cleanup_request ev
  | _ => None
  end.

Definition status_set (ev : event call) : option nat :=
  match ev with
  | Ev (ResStatus code) _ => Some code
  | _ => None
  end.

Definition logged_error (ev : event call) : option string :=
  match ev with
  | Ev (LoggerError msg) _ => Some msg
  | _ => None
  end.

(** Operations on the asset registry, by the key they carry. *)
Inductive registry_op : Type :=
| Insert (userId : string) (checksum : Checksum)
| Lookup (userId : string) (checksum : Checksum).

Definition registry_call (ev : event call) : option registry_op :=
  match ev with
  | Ev (CreateUserAsset u _ _ _ c) _ => Some (Insert (AuthUserDto.id u) c)
  | Ev (GetAssetByChecksum uid c) _ => Some (Lookup uid c)
  | _ => None
  end.

Definition first_answer {X} (f : event call -> option X) (tr : list (event call)) : option X :=
  head (omap f tr).

Definition enqueued (tr : list (event call)) : list submission := omap submitted tr.
Definition handed_to_cleanup (tr : list (event call)) : list string :=
  concat (omap cleanup_request tr).
Definition cleanup_rejections (tr : list (event call)) : list JsError :=
  omap cleanup_rejection tr.
Definition scheduled_for_cleanup (tr : list (event call)) : list string :=
  concat (omap cleanup_accepted tr).
Definition logged (tr : list (event call)) : list string := omap logged_error tr.
Definition registry_ops (tr : list (event call)) : list registry_op := omap registry_call tr.

(** Nest answers a POST with 201 unless the handler set another status. *)
Definition http_status (tr : list (event call)) : nat :=
  default 201 (last (omap status_set tr)).

(** "normal POST is 201. we use 200 to indicate the asset already exists" *)
Definition isDuplicate (tr : list (event call)) : bool := Nat.eqb (http_status tr) 200.

End UploadTrace.

(** ** The delete endpoint *)

Module Delete.
Inductive call : Type -> Type :=
| GetAssetById (authUser : AuthUserDto.t) (assetId : string)
    : call (result (option AssetResponseDto.t))
| DeleteAssetById (authUser : AuthUserDto.t) (assetIds : DeleteAssetDto.t)
    : call (result (list DeleteAssetResponseDto.t))
| DeleteFileOnDisk (assets : list AssetResponseDto.t) : call (option JsError).
End Delete.

Section DeleteAsset.
Import Delete.

(** [for (const id of assetIds.ids) { ... deleteAssetList.push(assets) }] *)
Fixpoint collectAssets (authUser : AuthUserDto.t) (ids : list string)
    (deleteAssetList : list AssetResponseDto.t)
  : prog call (list AssetResponseDto.t) :=
  match ids with
  | [] => Ret deleteAssetList
  | id :: ids =>
      assets ← await (GetAssetById authUser id);
      match assets with
      | None => collectAssets authUser ids deleteAssetList
      | Some assets => collectAssets authUser ids (deleteAssetList ++ [assets])
      end
  end.

(** [deleteAssetList.filter((a) => a.id == res.id && res.status == SUCCESS)]:
    [Array.prototype.filter] builds a new array and leaves its receiver as
    it is. *)
Definition filterDeleted (res : DeleteAssetResponseDto.t)
    (deleteAssetList : list AssetResponseDto.t) : list AssetResponseDto.t :=
  filter (λ a, AssetResponseDto.id a = DeleteAssetResponseDto.id res
               ∧ DeleteAssetResponseDto.status res = SUCCESS) deleteAssetList.

(** [result.forEach(f)]: [f] is applied to each element and what it
    evaluates to is dropped. *)
Definition forEach {A B} (l : list A) (f : A -> B) : unit :=
  foldl (fun _ x => let _ := f x in tt) tt l.

Definition deleteAsset (authUser : AuthUserDto.t) (assetIds : DeleteAssetDto.t)
  : prog call (list DeleteAssetResponseDto.t) :=
  deleteAssetList ← collectAssets authUser (DeleteAssetDto.ids assetIds) [];
  result ← await (DeleteAssetById authUser assetIds);
  let _ := forEach result (fun res => filterDeleted res deleteAssetList) in
  awaitQueue (DeleteFileOnDisk deleteAssetList);;
  Ret result.

(** The assets whose files a delete request handed to the delete queue. *)
Definition files_scheduled (tr : list (event call)) : list AssetResponseDto.t :=
  concat (omap (fun ev => match ev with
                          | Ev (DeleteFileOnDisk assets) _ => Some assets
                          | _ => None
                          end) tr).

(** The assets [getAssetById] answered with. *)
Definition found (ev : event call) : option AssetResponseDto.t :=
  match ev with
  | Ev c x =>
      match c in call X return X -> option AssetResponseDto.t with
      | GetAssetById _ _ => fun x => match x with Ok (Some a) => Some a | _ => None end
      | _ => fun _ => None
      end x
  end.

End DeleteAsset.

(** ** Environments *)

(** A stateless environment that answers each kind of call as scripted. *)
Module Script.
Record upload := {
  hash_answer : result Checksum;
  insert_answer : result (option AssetEntity.t);
  add_answer : option JsError;
  lookup_answer : result AssetEntity.t;
  cleanup_answer : option JsError }.

Definition upload_handler (a : upload) : @handler Upload.call unit :=
  fun X c s =>
    (match c in Upload.call X return X with
     | Upload.CalculateChecksum _ => hash_answer a
     | Upload.CreateUserAsset _ _ _ _ _ => insert_answer a
     | Upload.GetAssetByChecksum _ _ => lookup_answer a
     | Upload.QueueAdd _ _ _ => add_answer a
     | Upload.DeleteFileOnDisk _ => cleanup_answer a
     | Upload.ResStatus _ => tt
     | Upload.LoggerError _ => tt
     end, s).

Record delete := {
  getAssetById_answer : AuthUserDto.t -> string -> result (option AssetResponseDto.t);
  deleteAssetById_answer :
    AuthUserDto.t -> DeleteAssetDto.t -> result (list DeleteAssetResponseDto.t);
  deleteFileOnDisk_answer : option JsError }.

Definition delete_handler (a : delete) : @handler Delete.call unit :=
  fun X c s =>
    (match c in Delete.call X return X with
     | Delete.GetAssetById u i => getAssetById_answer a u i
     | Delete.DeleteAssetById u ids => deleteAssetById_answer a u ids
     | Delete.DeleteFileOnDisk _ => deleteFileOnDisk_answer a
     end, s).
End Script.

(** ** The collaborators of the upload path, from the specification

    The asset service, its repository, the queue and the background-task
    service are not among the sources.  The following world gives them the
    behaviour the specification states at their boundary. *)

Record World := {
  (** the bytes stored under each path of the upload location *)
  disk : gmap string (list byte);
  (** the rows of the asset registry *)
  assets : list AssetEntity.t;
  (** the jobs the asset-uploaded queue knows, pending or completed *)
  assetUploadedQueue : list submission;
  (** the paths handed to the background delete queue *)
  backgroundTaskQueue : list string;
  errorLog : list string }.

Definition emptyWorld : World :=
  {| disk := ∅; assets := []; assetUploadedQueue := [];
     backgroundTaskQueue := []; errorLog := [] |}.

(** The rows under one (owner, digest) key. *)
Definition rows_with_key (userId : string) (checksum : Checksum)
    (rows : list AssetEntity.t) : list AssetEntity.t :=
  filter (λ a, AssetEntity.userId a = userId ∧ AssetEntity.checksum a = checksum) rows.

Definition jobs_with_key (jobId : string) (q : list submission) : list submission :=
  filter (λ j, sub_jobId j = jobId) q.

(** The row an insert adds: its identity is generated at creation, distinct
    from every identity in the registry. *)
Definition newAsset (authUser : AuthUserDto.t) (assetInfo : CreateAssetDto.t)
    (originalPath mimeType : string) (checksum : Checksum)
    (rows : list AssetEntity.t) : AssetEntity.t :=
  {| AssetEntity.id := fresh (AssetEntity.id <$> rows);
     AssetEntity.userId := AuthUserDto.id authUser;
     AssetEntity.deviceAssetId := CreateAssetDto.deviceAssetId assetInfo;
     AssetEntity.deviceId := CreateAssetDto.deviceId assetInfo;
     AssetEntity.originalPath := originalPath;
     AssetEntity.mimeType := mimeType;
     AssetEntity.checksum := checksum |}.

Section SpecWorld.

(** The content hasher's digest function: deterministic, any input size
    (section 4.1). *)
Variable hash : list byte -> Checksum.

(** Modelled from the spec: [AssetService.calculateChecksum] is missing.
    Section 4.1: the digest of the file's bytes, or an I/O error if the
    source cannot be read; no side effects. *)
Definition calculateChecksum (filePath : string) (w : World) : result Checksum :=
  match disk w !! filePath with
  | Some bytes => Ok (hash bytes)
  | None => Throw (Error {| name := "Error"; message := "ENOENT: no such file or directory" |})
  end.

(** Modelled from the spec: [AssetService.createUserAsset] and the
    repository are missing.  Section 4.2: the insert is attempted under the
    uniqueness constraint on (owner, digest); it either returns the new
    Asset, whose identity is generated at creation and whose storage path is
    the candidate path, or fails with the uniqueness violation. *)
Definition createUserAsset (authUser : AuthUserDto.t) (assetInfo : CreateAssetDto.t)
    (originalPath mimeType : string) (checksum : Checksum) (w : World)
  : result (option AssetEntity.t) * World :=
  match rows_with_key (AuthUserDto.id authUser) checksum (assets w) with
  | _ :: _ =>
      (Throw (QueryFailedError (Some "UQ_userid_checksum")
                "duplicate key value violates unique constraint"), w)
  | [] =>
      let a := newAsset authUser assetInfo originalPath mimeType checksum (assets w) in
      (Ok (Some a),
       {| disk := disk w; assets := assets w ++ [a];
          assetUploadedQueue := assetUploadedQueue w;
          backgroundTaskQueue := backgroundTaskQueue w; errorLog := errorLog w |})
  end.

(** Modelled from the spec: [AssetService.getAssetByChecksum] is missing.
    Section 4.2: the read-back of the existing Asset for (owner, digest). *)
Definition getAssetByChecksum (userId : string) (checksum : Checksum) (w : World)
  : result AssetEntity.t :=
  match rows_with_key userId checksum (assets w) with
  | a :: _ => Ok a
  | [] => Throw (Error {| name := "EntityNotFoundError";
                          message := "Could not find any entity of type AssetEntity" |})
  end.

(** Modelled from the spec: the queue is bull's, outside the sources.
    Section 4.3: enqueue with a job key the queue already knows is a no-op;
    otherwise the job is added. *)
Definition queueAdd (j : submission) (w : World) : World :=
  match jobs_with_key (sub_jobId j) (assetUploadedQueue w) with
  | _ :: _ => w
  | [] =>
      {| disk := disk w; assets := assets w;
         assetUploadedQueue := assetUploadedQueue w ++ [j];
         backgroundTaskQueue := backgroundTaskQueue w; errorLog := errorLog w |}
  end.

(** Modelled from the spec: [BackgroundTaskService.deleteFileOnDisk] is
    missing.  Sections 2 and 6: the files are scheduled for removal, which
    happens off the request path. *)
Definition deleteFileOnDisk (paths : list string) (w : World) : World :=
  {| disk := disk w; assets := assets w;
     assetUploadedQueue := assetUploadedQueue w;
     backgroundTaskQueue := backgroundTaskQueue w ++ paths;
     errorLog := errorLog w |}.

Definition loggerError (msg : string) (w : World) : World :=
  {| disk := disk w; assets := assets w;
     assetUploadedQueue := assetUploadedQueue w;
     backgroundTaskQueue := backgroundTaskQueue w;
     errorLog := errorLog w ++ [msg] |}.

Definition world_handler : @handler Upload.call World :=
  fun X c w =>
    match c in Upload.call X return X * World with
    | Upload.CalculateChecksum p => (calculateChecksum p w, w)
    | Upload.CreateUserAsset u i p m c => createUserAsset u i p m c w
    | Upload.GetAssetByChecksum uid c => (getAssetByChecksum uid c w, w)
    | Upload.QueueAdd n d j =>
        (None, queueAdd {| sub_name := n; sub_data := d; sub_jobId := j |} w)
    | Upload.DeleteFileOnDisk l =>
        (None, deleteFileOnDisk (SimulatedAsset.originalPath <$> l) w)
    | Upload.ResStatus _ => (tt, w)
    | Upload.LoggerError msg => (tt, loggerError msg w)
    end.

(** The uniqueness constraint [UQ_userid_checksum] and the primary key. *)
Definition asset_key (a : AssetEntity.t) : string * Checksum :=
  (AssetEntity.userId a, AssetEntity.checksum a).

Definition registry_ok (w : World) : Prop :=
  NoDup (asset_key <$> assets w) ∧ NoDup (AssetEntity.id <$> assets w).

End SpecWorld.

(** The processor kinds of the specification (sections 1 and 8). *)
Inductive ProcessorKind : Type := Thumbnail | Metadata | MlTag.
Definition registered_kinds : list ProcessorKind := [Thumbnail; Metadata; MlTag].

(** ** The ways through [uploadFile] *)

Section UploadPaths.
Import Upload.
Variables (jobName : string) (authUser : AuthUserDto.t) (file : File.t)
  (assetInfo : CreateAssetDto.t).

Abbreviation hashed c := (Ev (CalculateChecksum (File.path file)) (Ok c)).
Abbreviation inserted c x :=
  (Ev (CreateUserAsset authUser assetInfo (File.path file) (File.mimetype file) c) x).
Abbreviation added a x :=
  (Ev (QueueAdd jobName (IAssetUploadedJob.mk a (File.originalname file))
         (AssetEntity.id a)) x).
Abbreviation handed x :=
  (Ev (DeleteFileOnDisk [SimulatedAsset.mk (File.path file)]) x).
Abbreviation rejected err :=
  (Throw (BadRequestException "Error uploading file" (exn_to_string err))).
Abbreviation reported err :=
  (Ev (LoggerError ("Error uploading file " ++ exn_to_string err)) tt).

(** The ways out of the try block by a throw, each with the error thrown and
    the calls made up to it. *)
Inductive try_failure (c : Checksum) : exn -> list (event call) -> Prop :=
| insert_threw e :
    try_failure c e [inserted c (Throw e)]
| add_rejected a q :
    try_failure c (Error q) [inserted c (Ok (Some a)); added a (Some q)]
| nothing_created :
    try_failure c (BadRequestException "Asset not created" "Bad Request")
      [inserted c (Ok None); handed None]
| nothing_created_hand_over_rejected q :
    try_failure c (Error q) [inserted c (Ok None); handed (Some q)].

(** The ways through the catch block for a caught error. *)
Inductive catch_path (c : Checksum) (err : exn)
  : result AssetFileUploadResponseDto.t -> list (event call) -> Prop :=
| hand_over_rejected q :
    catch_path c err (Throw (Error q)) [handed (Some q)]
| duplicate existed :
    is_unique_violation err = true ->
    catch_path c err (Ok (AssetFileUploadResponseDto.mk (AssetEntity.id existed)))
      [handed None;
       Ev (GetAssetByChecksum (AuthUserDto.id authUser) c) (Ok existed);
       Ev (ResStatus 200) tt]
| lookup_failed e' :
    is_unique_violation err = true ->
    catch_path c err (Throw e')
      [handed None;
       Ev (GetAssetByChecksum (AuthUserDto.id authUser) c) (Throw e')]
| wrapped :
    is_unique_violation err = false ->
    catch_path c err (rejected err) [handed None; reported err].

(** The ways through the handler, each with its result and its trace. *)
Inductive upload_path
  : result AssetFileUploadResponseDto.t -> list (event call) -> Prop :=
| hash_failed e :
    upload_path (Throw e) [Ev (CalculateChecksum (File.path file)) (Throw e)]
| stored c a :
    upload_path (Ok (AssetFileUploadResponseDto.mk (AssetEntity.id a)))
      [hashed c; inserted c (Ok (Some a)); added a None]
| caught c err tr1 r tr2 :
    try_failure c err tr1 ->
    catch_path c err r tr2 ->
    upload_path r (hashed c :: tr1 ++ tr2).

End UploadPaths.

(** ** Sample requests *)

Module Sample.
Definition u1 : AuthUserDto.t := AuthUserDto.mk "u1".
Definition u2 : AuthUserDto.t := AuthUserDto.mk "u2".
Definition ABC : list byte := [x41; x42; x43]%byte.
Definition d1 : Checksum := [x3c; x01; xbd]%byte.
Definition upload1 : File.t := File.mk "upload/tmp-1" "image/jpeg" "IMG_0001.jpg".
Definition upload2 : File.t := File.mk "upload/tmp-2" "image/jpeg" "IMG_0001.jpg".
Definition info : CreateAssetDto.t := CreateAssetDto.mk "IMG_0001" "phone" "2022-11-20".
Definition a1 : AssetEntity.t :=
  AssetEntity.mk "a1" "u1" "IMG_0001" "phone" "upload/tmp-1" "image/jpeg" d1.
Definition a0 : AssetEntity.t :=
  AssetEntity.mk "a0" "u1" "IMG_0001" "phone" "upload/stored-0" "image/jpeg" d1.
Definition conflict : exn :=
  QueryFailedError (Some "UQ_userid_checksum")
    "duplicate key value violates unique constraint".
Definition redisDown : JsError := {| name := "Error"; message := "Connection is closed." |}.
Definition unreadable : exn :=
  Error {| name := "Error"; message := "EIO: i/o error, read" |}.
Definition dbDown : exn := QueryFailedError None "terminating connection".

(** a new asset is stored and its job accepted *)
Definition firstUpload : Script.upload :=
  {| Script.hash_answer := Ok d1; Script.insert_answer := Ok (Some a1);
     Script.add_answer := None; Script.lookup_answer := Throw unreadable;
     Script.cleanup_answer := None |}.
(** the asset is stored but the queue rejects the job *)
Definition queueDown : Script.upload :=
  {| Script.hash_answer := Ok d1; Script.insert_answer := Ok (Some a1);
     Script.add_answer := Some redisDown; Script.lookup_answer := Throw unreadable;
     Script.cleanup_answer := None |}.
(** the same owner already has the content as asset [a0] *)
Definition secondUpload : Script.upload :=
  {| Script.hash_answer := Ok d1; Script.insert_answer := Throw conflict;
     Script.add_answer := None; Script.lookup_answer := Ok a0;
     Script.cleanup_answer := None |}.
(** the service resolves without an asset *)
Definition noAsset : Script.upload :=
  {| Script.hash_answer := Ok d1; Script.insert_answer := Ok None;
     Script.add_answer := None; Script.lookup_answer := Throw unreadable;
     Script.cleanup_answer := None |}.
(** the hasher cannot read the uploaded file *)
Definition hasherFails : Script.upload :=
  {| Script.hash_answer := Throw unreadable; Script.insert_answer := Ok (Some a1);
     Script.add_answer := None; Script.lookup_answer := Throw unreadable;
     Script.cleanup_answer := None |}.
(** the insert fails for another reason than the uniqueness constraint *)
Definition storeFails : Script.upload :=
  {| Script.hash_answer := Ok d1; Script.insert_answer := Throw dbDown;
     Script.add_answer := None; Script.lookup_answer := Throw unreadable;
     Script.cleanup_answer := None |}.

Definition upload (a : Script.upload) :=
  run (Script.upload_handler a) (uploadFile "asset-uploaded" u1 upload1 info) tt.

(** A stand-in for the hasher; the properties hold for any digest function. *)
Definition hash (bytes : list byte) : Checksum := bytes.

(** Two uploads of the bytes "ABC" wait in the upload location of an empty
    registry. *)
Definition world : World :=
  {| disk := {[ "upload/tmp-1" := ABC; "upload/tmp-2" := ABC ]};
     assets := []; assetUploadedQueue := [];
     backgroundTaskQueue := []; errorLog := [] |}.

(** [u2] asks to delete asset [a1], which [u1] owns: the service finds the
    asset by its ID and refuses the deletion. *)
Definition stored1 : AssetResponseDto.t :=
  AssetResponseDto.mk "a1" "u1" "upload/stored-1".
Definition refusedDelete : Script.delete :=
  {| Script.getAssetById_answer := fun _ assetId =>
       if String.eqb assetId "a1" then Ok (Some stored1) else Ok None;
     Script.deleteAssetById_answer := fun authUser assetIds =>
       Ok ((fun assetId =>
              DeleteAssetResponseDto.mk assetId
                (if String.eqb assetId "a1"
                 then if String.eqb (AuthUserDto.id authUser) "u1"
                      then SUCCESS else FORBIDDEN
                 else NOT_FOUND)) <$> DeleteAssetDto.ids assetIds);
     Script.deleteFileOnDisk_answer := None |}.
Definition delete (authUser : AuthUserDto.t) (ids : list string) :=
  run (Script.delete_handler refusedDelete)
    (deleteAsset authUser (DeleteAssetDto.mk ids)) tt.
End Sample.

(** Further sample answers. *)
Module MoreSamples.
(** the insert hits the constraint, and the row is gone when read back *)
Definition notFound : exn :=
  Error {| name := "EntityNotFoundError";
           message := "Could not find any entity of type AssetEntity" |}.
Definition readBackFails : Script.upload :=
  {| Script.hash_answer := Ok Sample.d1; Script.insert_answer := Throw Sample.conflict;
     Script.add_answer := None; Script.lookup_answer := Throw notFound;
     Script.cleanup_answer := None |}.

(** the insert hits the constraint, and the delete queue is down *)
Definition conflictQueueDown : Script.upload :=
  {| Script.hash_answer := Ok Sample.d1; Script.insert_answer := Throw Sample.conflict;
     Script.add_answer := None; Script.lookup_answer := Ok Sample.a0;
     Script.cleanup_answer := Some Sample.redisDown |}.

Definition stored2 : AssetResponseDto.t :=
  AssetResponseDto.mk "a2" "u1" "upload/stored-2".
(** [a1] and [a2] are found and deleted, any other ID is not found *)
Definition deletes : Script.delete :=
  {| Script.getAssetById_answer := fun _ assetId =>
       if String.eqb assetId "a1" then Ok (Some Sample.stored1)
       else if String.eqb assetId "a2" then Ok (Some stored2)
       else Ok None;
     Script.deleteAssetById_answer := fun _ assetIds =>
       Ok ((fun assetId =>
              DeleteAssetResponseDto.mk assetId
                (if String.eqb assetId "a1" || String.eqb assetId "a2"
                 then SUCCESS else NOT_FOUND)) <$> DeleteAssetDto.ids assetIds);
     Script.deleteFileOnDisk_answer := None |}.
(** the lookup of [a2] rejects *)
Definition lookupFails : Script.delete :=
  {| Script.getAssetById_answer := fun _ assetId =>
       if String.eqb assetId "a1" then Ok (Some Sample.stored1)
       else Throw notFound;
     Script.deleteAssetById_answer := fun _ _ => Ok [];
     Script.deleteFileOnDisk_answer := None |}.
(** the assets are found, and the deletion rejects *)
Definition deleteFails : Script.delete :=
  {| Script.getAssetById_answer := Script.getAssetById_answer deletes;
     Script.deleteAssetById_answer := fun _ _ => Throw Sample.dbDown;
     Script.deleteFileOnDisk_answer := None |}.

Definition delete (a : Script.delete) (ids : list string) :=
  run (Script.delete_handler a) (deleteAsset Sample.u1 (DeleteAssetDto.mk ids)) tt.
End MoreSamples.

(** The claims of the specification that the code does not meet, as stated. *)

(** One job per registered processor kind, each keyed by the asset's ID. *)
Definition one_job_per_kind (a : AssetEntity.t) (jobs : list submission) : Prop :=
  length jobs = length registered_kinds ∧
  Forall (λ j, sub_jobId j = AssetEntity.id a) jobs.

(** An enqueue failure is tolerated: the asset's ID is returned and its file
    is kept. *)
Definition enqueue_failure_tolerated (a : AssetEntity.t) (file : File.t)
    (r : result AssetFileUploadResponseDto.t) (tr : list (event Upload.call)) : Prop :=
  r = Ok (AssetFileUploadResponseDto.mk (AssetEntity.id a)) ∧
  File.path file ∉ handed_to_cleanup tr.

(** A uniqueness violation of the insert is answered with the asset read
    back. *)
Definition read_back_on_conflict (r : result AssetFileUploadResponseDto.t)
    (tr : list (event Upload.call)) : Prop :=
  (exists m, first_answer insert_outcome tr =
               Some (Throw (QueryFailedError (Some "UQ_userid_checksum") m))) ->
  exists existed, first_answer lookup_outcome tr = Some (Ok existed) /\
    r = Ok (AssetFileUploadResponseDto.mk (AssetEntity.id existed)).


(** Files go to the delete queue only for assets of the caller whose
    deletion succeeded. *)
Definition only_deleted_scheduled (authUser : AuthUserDto.t)
    (res : list DeleteAssetResponseDto.t) (tr : list (event Delete.call)) : Prop :=
  forall a, a ∈ files_scheduled tr ->
    AssetResponseDto.ownerId a = AuthUserDto.id authUser /\
    exists d, d ∈ res /\ DeleteAssetResponseDto.id d = AssetResponseDto.id a /\
              DeleteAssetResponseDto.status d = SUCCESS.

(** ** Further readings of a trace *)

Section MoreTraces.

(** What the insert was asked to store: the path, the MIME type and the
    checksum. *)
Definition insert_request (ev : event Upload.call) : option (string * string * Checksum) :=
  match ev with
  | Ev (Upload.CreateUserAsset _ _ p m c) _ => Some (p, m, c)
  | _ => None
  end.

(** The path the hasher was asked to read. *)
Definition hash_request (ev : event Upload.call) : option string :=
  match ev with
  | Ev (Upload.CalculateChecksum p) _ => Some p
  | _ => None
  end.

(** The lookups a delete request made: the caller and the ID asked for. *)
Definition lookup_asked (ev : event Delete.call) : option (AuthUserDto.t * string) :=
  match ev with
  | Ev (Delete.GetAssetById u i) _ => Some (u, i)
  | _ => None
  end.

(** A lookup that rejected. *)
Definition lookup_failure (ev : event Delete.call) : option exn :=
  match ev with
  | Ev c x =>
      match c in Delete.call X return X -> option exn with
      | Delete.GetAssetById _ _ => fun x => match x with Throw e => Some e | Ok _ => None end
      | _ => fun _ => None
      end x
  end.

(** The deletions asked of the service, and what it answered. *)
Definition delete_request (ev : event Delete.call)
  : option (AuthUserDto.t * DeleteAssetDto.t) :=
  match ev with
  | Ev (Delete.DeleteAssetById u d) _ => Some (u, d)
  | _ => None
  end.

Definition delete_outcome (ev : event Delete.call)
  : option (result (list DeleteAssetResponseDto.t)) :=
  match ev with
  | Ev c x =>
      match c in Delete.call X return X -> option (result (list DeleteAssetResponseDto.t)) with
      | Delete.DeleteAssetById _ _ => fun x => Some x
      | _ => fun _ => None
      end x
  end.

(** The jobs handed to the delete queue, one list of assets per job. *)
Definition delete_job (ev : event Delete.call) : option (list AssetResponseDto.t) :=
  match ev with
  | Ev (Delete.DeleteFileOnDisk l) _ => Some l
  | _ => None
  end.

End MoreTraces.

(** * Properties of [uploadFile] under any environment *)

(** One step of [run]: case on what the environment answers to the next call. *)
Ltac answer h x :=
  match goal with
  | |- context [h ?X ?c ?s] =>
      let s' := fresh "s" in
      destruct (h X c s) as [x s']; simpl
  end.

#[local] Arguments exn_to_string : simpl never.

(** The handler takes an error for the duplicate signal exactly when it is a
    [QueryFailedError] whose constraint is [UQ_userid_checksum]. *)
Lemma is_unique_violation_iff err :
  is_unique_violation err = true <->
  exists m, err = QueryFailedError (Some "UQ_userid_checksum") m.
Proof.
  split.
  - destruct err as [[c|] m| |]; simpl; try discriminate.
    intros ->%String.eqb_eq. by exists m.
  - by intros [m ->].
Qed.

Lemma is_unique_violation_false err :
  is_unique_violation err = false <->
  forall m, err ≠ QueryFailedError (Some "UQ_userid_checksum") m.
Proof.
  split.
  - intros Hf m ->. discriminate Hf.
  - intros Hne. destruct (is_unique_violation err) eqn:Hv; [|done].
    apply is_unique_violation_iff in Hv as [m ->]. by destruct (Hne m).
Qed.

Section UploadClaims.
Import Upload.
Context {St : Type}.
Variables (jobName : string) (authUser : AuthUserDto.t) (file : File.t)
  (assetInfo : CreateAssetDto.t).
Variables (h : @handler call St) (s : St).

Lemma uploadFile_paths :
  let r := run h (uploadFile jobName authUser file assetInfo) s in
  upload_path jobName authUser file assetInfo (outcome r) (trace r).
Proof.
  unfold outcome, trace, uploadFile. simpl.
  answer h x. destruct x as [c|e]; simpl; [|apply hash_failed].
  answer h x. destruct x as [[a|]|e]; simpl.
  - answer h x. destruct x as [q|]; simpl; [|apply stored].
    answer h x. destruct x as [q'|]; simpl.
    + apply (caught _ _ _ _ c _ _ _ _ (add_rejected jobName authUser file assetInfo c a q)).
      apply hand_over_rejected.
    + answer h x. destruct x.
      apply (caught _ _ _ _ c _ _ _ _ (add_rejected jobName authUser file assetInfo c a q)).
      by apply wrapped.
  - answer h x. destruct x as [q|]; simpl.
    + answer h x. destruct x as [q'|]; simpl.
      * apply (caught _ _ _ _ c _ _ _ _
                 (nothing_created_hand_over_rejected jobName authUser file assetInfo c q)).
        apply hand_over_rejected.
      * answer h x. destruct x.
        apply (caught _ _ _ _ c _ _ _ _
                 (nothing_created_hand_over_rejected jobName authUser file assetInfo c q)).
        by apply wrapped.
    + answer h x. destruct x as [q'|]; simpl.
      * apply (caught _ _ _ _ c _ _ _ _
                 (nothing_created jobName authUser file assetInfo c)).
        apply hand_over_rejected.
      * answer h x. destruct x.
        apply (caught _ _ _ _ c _ _ _ _
                 (nothing_created jobName authUser file assetInfo c)).
        by apply wrapped.
  - answer h x. destruct x as [q'|]; simpl.
    + apply (caught _ _ _ _ c _ _ _ _ (insert_threw jobName authUser file assetInfo c e)).
      apply hand_over_rejected.
    + destruct (is_unique_violation e) eqn:Hv; simpl.
      * answer h x. destruct x as [existed|e']; simpl.
        -- answer h x. destruct x.
           apply (caught _ _ _ _ c _ _ _ _
                    (insert_threw jobName authUser file assetInfo c e)).
           by apply duplicate.
        -- apply (caught _ _ _ _ c _ _ _ _
                    (insert_threw jobName authUser file assetInfo c e)).
           by apply lookup_failed.
      * answer h x. destruct x.
        apply (caught _ _ _ _ c _ _ _ _
                 (insert_threw jobName authUser file assetInfo c e)).
        by apply wrapped.
Qed.

Ltac by_paths :=
  intros;
  let Hp := fresh "Hp" in
  let Ht := fresh "Ht" in
  let Hc := fresh "Hc" in
  pose proof uploadFile_paths as Hp;
  cbv zeta in Hp;
  repeat match goal with x := _ |- _ => subst x end;
  generalize dependent (trace (run h (uploadFile jobName authUser file assetInfo) s));
  generalize dependent (outcome (run h (uploadFile jobName authUser file assetInfo) s));
  intros o tr; intros;
  destruct Hp as [? | ? ? | ? ? ? ? ? Ht Hc];
  [ | | destruct Ht; destruct Hc];
  unfold first_answer, enqueued, handed_to_cleanup, logged, registry_ops,
    isDuplicate, http_status, cleanup_rejections, scheduled_for_cleanup in *;
  simpl in *;
  try match goal with H : false = true |- _ => discriminate H end.

(** X9: once the digest is known, the temporary file stays out of the delete
    queue exactly when the upload answers with a newly stored asset. *)
Lemma cleanup_after_hash c :
  let r := run h (uploadFile jobName authUser file assetInfo) s in
  first_answer hash_outcome (trace r) = Some (Ok c) ->
  handed_to_cleanup (trace r) = [] <->
  (exists a, first_answer insert_outcome (trace r) = Some (Ok (Some a)) /\
             outcome r = Ok (AssetFileUploadResponseDto.mk (AssetEntity.id a))).
Proof.
  by_paths; split; try discriminate;
    try (intros (a' & Hi & Ho); discriminate); eauto.
Qed.

(** Every registry operation of an upload carries the uploading owner's ID
    and the digest the hasher answered. *)
Lemma registry_ops_scoped op :
  let r := run h (uploadFile jobName authUser file assetInfo) s in
  op ∈ registry_ops (trace r) ->
  exists c, first_answer hash_outcome (trace r) = Some (Ok c) /\
            (op = Insert (AuthUserDto.id authUser) c \/
             op = Lookup (AuthUserDto.id authUser) c).
Proof.
  by_paths;
    repeat match goal with
           | H : _ ∈ [] |- _ => by apply not_elem_of_nil in H
           | H : _ ∈ _ :: _ |- _ => apply elem_of_cons in H as [->|H]
           end; eauto.
Qed.

(** Every submission of an upload has the ID of the asset it carries as its
    job ID. *)
Lemma job_id_is_asset_id :
  let r := run h (uploadFile jobName authUser file assetInfo) s in
  Forall (λ j, sub_jobId j = AssetEntity.id (IAssetUploadedJob.asset (sub_data j)))
    (enqueued (trace r)).
Proof. by_paths; repeat constructor. Qed.

(** C2 as amended: the handler goes to the registry with the insert first,
    under the owner and the digest just computed.  The read-back by the same
    owner and digest happens if and only if the insert was rejected by a
    [QueryFailedError] for the constraint [UQ_userid_checksum] and the
    hand-over of the uploaded file to the delete queue resolved; the asset read
    back is answered as a duplicate.  An insert rejected for any other
    reason makes the upload fail without a read-back, with the
    [BadRequestException] when the hand-over resolved. *)
Theorem insert_first_fallback_on_conflict :
  let r := run h (uploadFile jobName authUser file assetInfo) s in
  let tr := trace r in
  (forall c, first_answer hash_outcome tr = Some (Ok c) ->
     head (registry_ops tr) = Some (Insert (AuthUserDto.id authUser) c)) /\
  (((exists m, first_answer insert_outcome tr =
                 Some (Throw (QueryFailedError (Some "UQ_userid_checksum") m))) /\
    cleanup_rejections tr = []) <->
   (exists c, registry_ops tr =
                [Insert (AuthUserDto.id authUser) c;
                 Lookup (AuthUserDto.id authUser) c])) /\
  (forall existed, first_answer lookup_outcome tr = Some (Ok existed) ->
     outcome r = Ok (AssetFileUploadResponseDto.mk (AssetEntity.id existed)) /\
     isDuplicate tr = true) /\
  (forall e, first_answer insert_outcome tr = Some (Throw e) ->
     (forall m, e ≠ QueryFailedError (Some "UQ_userid_checksum") m) ->
     (exists c, registry_ops tr = [Insert (AuthUserDto.id authUser) c]) /\
     (exists e', outcome r = Throw e') /\
     (cleanup_rejections tr = [] ->
      outcome r = Throw (BadRequestException "Error uploading file" (exn_to_string e)))).
Proof.
  by_paths;
    repeat match goal with
           | H : is_unique_violation _ = true |- _ =>
               apply is_unique_violation_iff in H as [? ->]
           | H : is_unique_violation _ = false |- _ =>
               apply is_unique_violation_false in H
           end;
    (split; [|split; [|split]]).
  all: try (intros; simplify_eq; by eauto).
  all: try (split; [intros [[m0 Hm] Hr] | intros (c0 & Hc0)]; simplify_eq; by eauto).
  all: intros e1 He1 Hne; simplify_eq;
    first [ by (exfalso; eapply Hne)
          | split; [by eauto|]; split; [by eauto|]; intros; by simplify_eq ].
Qed.

(** C3: when the content hasher rejects, the handler rethrows at once: the
    request ends with the hasher's error and the temporary file was never
    handed to the delete queue. *)
Theorem hasher_failure_skips_cleanup e :
  let r := run h (uploadFile jobName authUser file assetInfo) s in
  first_answer hash_outcome (trace r) = Some (Throw e) ->
  outcome r = Throw e /\
  handed_to_cleanup (trace r) = [] /\
  trace r = [Ev (CalculateChecksum (File.path file)) (Throw e)].
Proof. by_paths; by simplify_eq. Qed.

(** C4 as amended: a newly stored asset is followed by exactly one
    submission to the asset-uploaded queue, under the asset-uploaded job
    name, carrying the asset and the original file name, with the asset's ID
    as job ID. *)
Theorem one_job_keyed_by_asset a :
  let r := run h (uploadFile jobName authUser file assetInfo) s in
  first_answer insert_outcome (trace r) = Some (Ok (Some a)) ->
  enqueued (trace r) =
    [{| sub_name := jobName;
        sub_data := IAssetUploadedJob.mk a (File.originalname file);
        sub_jobId := AssetEntity.id a |}].
Proof. by_paths; by simplify_eq. Qed.

(** C5 as amended: when the queue rejects the job of a newly stored asset,
    the upload is rejected and no asset ID is returned; the handler asks
    nothing more of the registry, so the stored row stays; and when the
    hand-over to the delete queue in the catch block resolves, the error is
    logged and the rejection is the [BadRequestException]. *)
Theorem enqueue_failure_rejects_upload a e :
  let r := run h (uploadFile jobName authUser file assetInfo) s in
  first_answer insert_outcome (trace r) = Some (Ok (Some a)) ->
  first_answer add_outcome (trace r) = Some (Some e) ->
  (exists e', outcome r = Throw e') /\
  (exists c, registry_ops (trace r) = [Insert (AuthUserDto.id authUser) c]) /\
  (cleanup_rejections (trace r) = [] ->
   outcome r =
     Throw (BadRequestException "Error uploading file" (exn_to_string (Error e))) /\
   logged (trace r) = ["Error uploading file " ++ exn_to_string (Error e)]).
Proof.
  by_paths; simplify_eq; (split; [by eauto|]); (split; [by eauto|]); by intros.
Qed.

(** C6: when the insert is rejected for the uniqueness constraint and the
    read-back answers the existing asset, nothing is submitted to the queue,
    the temporary file is handed to the delete queue, the read-back comes
    after that hand-over, and the call returns the existing asset's ID. *)
Theorem duplicate_enqueues_nothing e existed :
  let r := run h (uploadFile jobName authUser file assetInfo) s in
  first_answer insert_outcome (trace r) = Some (Throw e) ->
  is_unique_violation e = true ->
  first_answer lookup_outcome (trace r) = Some (Ok existed) ->
  enqueued (trace r) = [] /\
  handed_to_cleanup (trace r) = [File.path file] /\
  (exists before after,
     trace r = (before ++ after)%list /\
     handed_to_cleanup before = [File.path file] /\
     first_answer lookup_outcome before = None /\
     first_answer lookup_outcome after = Some (Ok existed)) /\
  outcome r = Ok (AssetFileUploadResponseDto.mk (AssetEntity.id existed)).
Proof.
  by_paths; simplify_eq. repeat split.
  eexists (take 3 _), (drop 3 _). by rewrite take_drop.
Qed.


(** ** Further properties of [uploadFile] *)

(** X1: a rejected upload surfaces one of four errors: the hasher's; the
    read-back's after a constraint violation; the delete queue's, when it
    rejects the hand-over made in the catch block, and then nothing is
    logged; or the [BadRequestException] "Error uploading file", which is
    then also the one line written to the error log. *)
Theorem upload_rejections_classified e :
  let r := run h (uploadFile jobName authUser file assetInfo) s in
  outcome r = Throw e ->
  first_answer hash_outcome (trace r) = Some (Throw e) \/
  (exists e0, first_answer insert_outcome (trace r) = Some (Throw e0) /\
              is_unique_violation e0 = true /\
              first_answer lookup_outcome (trace r) = Some (Throw e)) \/
  (exists q, e = Error q /\
             last (omap cleanup_outcome (trace r)) = Some (Some q) /\
             logged (trace r) = []) \/
  (exists d, e = BadRequestException "Error uploading file" d /\
             logged (trace r) = ["Error uploading file " ++ d]).
Proof.
  by_paths; simplify_eq; eauto 10.
Qed.

(** X2: the handler writes at most one line to the error log, and when it
    does the upload is rejected with the [BadRequestException] that carries
    the logged error text. *)
Theorem logged_only_on_rejection :
  let r := run h (uploadFile jobName authUser file assetInfo) s in
  logged (trace r) = [] \/
  exists d, logged (trace r) = ["Error uploading file " ++ d] /\
            outcome r = Throw (BadRequestException "Error uploading file" d).
Proof.
  by_paths; eauto.
Qed.

(** X3: an upload that answers with an ID is one of two: a newly stored
    asset whose job the queue accepted, answered with status 201 and its
    file kept; or the asset read back after a constraint violation,
    answered with status 200, no job, and the uploaded file handed to the
    delete queue. *)
Theorem upload_answers_classified resp :
  let r := run h (uploadFile jobName authUser file assetInfo) s in
  outcome r = Ok resp ->
  (exists a, first_answer insert_outcome (trace r) = Some (Ok (Some a)) /\
             first_answer add_outcome (trace r) = Some None /\
             resp = AssetFileUploadResponseDto.mk (AssetEntity.id a) /\
             http_status (trace r) = 201 /\
             handed_to_cleanup (trace r) = []) \/
  (exists existed, first_answer lookup_outcome (trace r) = Some (Ok existed) /\
             resp = AssetFileUploadResponseDto.mk (AssetEntity.id existed) /\
             http_status (trace r) = 200 /\
             enqueued (trace r) = [] /\
             handed_to_cleanup (trace r) = [File.path file]).
Proof.
  by_paths; simplify_eq; [left|right]; eauto 10.
Qed.

(** X4: the handler sets status 200 exactly when the read-back answered an
    asset; in every other run, rejected ones included, it leaves the status
    at 201. *)
Theorem status_200_iff_read_back :
  let r := run h (uploadFile jobName authUser file assetInfo) s in
  (http_status (trace r) = 200 <->
   exists existed, first_answer lookup_outcome (trace r) = Some (Ok existed)) /\
  (http_status (trace r) = 200 \/ http_status (trace r) = 201).
Proof.
  by_paths; (split; [split; [intros [=] | intros [? [=]]] | by right]) ||
            (split; [split; eauto | by left]).
Qed.

(** X5: when the insert is rejected for the uniqueness constraint and the
    read-back rejects too, the read-back's error leaves the handler as it
    is: it is not wrapped and not logged, the status stays untouched, and
    the uploaded file has been handed to the delete queue. *)
Theorem read_back_failure_escapes e0 e' :
  let r := run h (uploadFile jobName authUser file assetInfo) s in
  first_answer insert_outcome (trace r) = Some (Throw e0) ->
  is_unique_violation e0 = true ->
  first_answer lookup_outcome (trace r) = Some (Throw e') ->
  outcome r = Throw e' /\
  logged (trace r) = [] /\
  http_status (trace r) = 201 /\
  enqueued (trace r) = [] /\
  handed_to_cleanup (trace r) = [File.path file].
Proof.
  by_paths; by simplify_eq.
Qed.

(** X6: when the service resolves the creation without an asset, the
    handler asks the delete queue for the uploaded file twice, once in the
    branch and once more in the catch block; when the queue accepts both,
    the rejection that reaches the caller and the log wraps the text of
    "Asset not created". *)
Theorem no_asset_cleans_twice :
  let r := run h (uploadFile jobName authUser file assetInfo) s in
  first_answer insert_outcome (trace r) = Some (Ok None) ->
  handed_to_cleanup (trace r) = [File.path file; File.path file] /\
  (cleanup_rejections (trace r) = [] ->
   scheduled_for_cleanup (trace r) = [File.path file; File.path file] /\
   outcome r = Throw (BadRequestException "Error uploading file"
                        "BadRequestException: Asset not created") /\
   logged (trace r) = ["Error uploading file BadRequestException: Asset not created"]).
Proof.
  by_paths; simplify_eq; (split; [done|]); by intros.
Qed.

(** X7: when the queue rejects the job of a newly stored asset, the path
    handed to the delete queue is the path the insert was given as the
    asset's original path. *)
Theorem enqueue_failure_deletes_stored_path a e :
  let r := run h (uploadFile jobName authUser file assetInfo) s in
  first_answer insert_outcome (trace r) = Some (Ok (Some a)) ->
  first_answer add_outcome (trace r) = Some (Some e) ->
  exists m c, first_answer insert_request (trace r) = Some (File.path file, m, c) /\
              handed_to_cleanup (trace r) = [File.path file].
Proof.
  by_paths; simplify_eq; eauto.
Qed.

(** X8: an upload submits at most one job, and it submits one exactly when
    the insert answered with an asset. *)
Theorem job_iff_asset_stored :
  let r := run h (uploadFile jobName authUser file assetInfo) s in
  length (enqueued (trace r)) <= 1 /\
  (enqueued (trace r) ≠ [] <->
   exists a, first_answer insert_outcome (trace r) = Some (Ok (Some a))).
Proof.
  by_paths; (split; [lia|]);
    (split; [intros Hne; try done; eauto | intros [a0 Ha]; by simplify_eq]).
Qed.

(** X10: nothing but the uploaded file is ever handed to the delete queue by
    an upload. *)
Theorem cleanup_only_uploaded_file p :
  let r := run h (uploadFile jobName authUser file assetInfo) s in
  p ∈ handed_to_cleanup (trace r) -> p = File.path file.
Proof.
  by_paths;
    repeat match goal with
           | H : _ ∈ [] |- _ => by apply not_elem_of_nil in H
           | H : _ ∈ _ :: _ |- _ => apply elem_of_cons in H as [->|H]
           end; done.
Qed.

(** X11: the file stored is the file hashed: whenever the insert is reached,
    it is given the path the hasher was asked to read, the MIME type of the
    upload, and the checksum the hasher answered. *)
Theorem insert_gets_hashed_file p m c :
  let r := run h (uploadFile jobName authUser file assetInfo) s in
  first_answer insert_request (trace r) = Some (p, m, c) ->
  p = File.path file /\ m = File.mimetype file /\
  first_answer hash_request (trace r) = Some p /\
  first_answer hash_outcome (trace r) = Some (Ok c).
Proof.
  by_paths; by simplify_eq.
Qed.

End UploadClaims.

(** * The upload against the registry and the queue of the specification *)

Section RegistryFacts.
Implicit Types (l : list AssetEntity.t) (a : AssetEntity.t).

Lemma elem_of_rows_with_key a u c l :
  a ∈ rows_with_key u c l <->
  a ∈ l /\ AssetEntity.userId a = u /\ AssetEntity.checksum a = c.
Proof. unfold rows_with_key. rewrite list_elem_of_filter. tauto. Qed.

Lemma rows_with_key_app u c l1 l2 :
  rows_with_key u c (l1 ++ l2) = (rows_with_key u c l1 ++ rows_with_key u c l2)%list.
Proof. apply filter_app. Qed.

Lemma rows_with_key_none u c l :
  rows_with_key u c l = [] -> (u, c) ∉ asset_key <$> l.
Proof.
  intros Hnil [a [Hk Ha]]%list_elem_of_fmap.
  assert (a ∈ rows_with_key u c l) as Hin.
  { apply elem_of_rows_with_key. unfold asset_key in Hk. by simplify_eq. }
  rewrite Hnil in Hin. by apply not_elem_of_nil in Hin.
Qed.

Lemma rows_with_key_snoc a l :
  rows_with_key (AssetEntity.userId a) (AssetEntity.checksum a) (l ++ [a]) =
  (rows_with_key (AssetEntity.userId a) (AssetEntity.checksum a) l ++ [a])%list.
Proof.
  rewrite rows_with_key_app. f_equal. unfold rows_with_key.
  rewrite filter_cons. by rewrite decide_True.
Qed.

(** Under the uniqueness constraint a key selects at most one row. *)
Lemma rows_with_key_unique u c l a rest :
  NoDup (asset_key <$> l) -> rows_with_key u c l = a :: rest -> rest = [].
Proof.
  induction l as [|x l IH]; [done|].
  rewrite fmap_cons, NoDup_cons. intros [Hx Hl]. unfold rows_with_key.
  rewrite filter_cons. case_decide as Hk.
  - intros [= -> Hrest]. destruct rest as [|b rest]; [done|]. exfalso.
    assert (b ∈ rows_with_key u c l) as Hb
      by (unfold rows_with_key; rewrite Hrest; apply list_elem_of_here).
    apply elem_of_rows_with_key in Hb as (Hbl & Hbu & Hbc).
    apply Hx, list_elem_of_fmap. exists b. split; [|done].
    unfold asset_key. destruct Hk. congruence.
  - apply IH, Hl.
Qed.

(** Rows are told apart by their identity. *)
Lemma same_id_same_row l a b :
  NoDup (AssetEntity.id <$> l) -> a ∈ l -> b ∈ l ->
  AssetEntity.id a = AssetEntity.id b -> a = b.
Proof.
  induction l as [|x l IH]; [by intros _ ?%not_elem_of_nil|].
  rewrite fmap_cons, NoDup_cons. intros [Hx Hl] Ha Hb Hid.
  apply elem_of_cons in Ha as [->|Ha]; apply elem_of_cons in Hb as [->|Hb];
    [done| | |by apply IH].
  - exfalso. apply Hx, list_elem_of_fmap. by exists b.
  - exfalso. apply Hx, list_elem_of_fmap. by exists a.
Qed.

Lemma newAsset_id_fresh u i p m c l :
  AssetEntity.id (newAsset u i p m c l) ∉ AssetEntity.id <$> l.
Proof. apply infinite_is_fresh. Qed.

End RegistryFacts.

Section WorldUpload.
Variable hash : list byte -> Checksum.
Variable jobName : string.

(** One upload of readable bytes: either the key is free and a row is added
    for it, or the first row under the key is answered as a duplicate. *)
Lemma world_upload w authUser file info B :
  disk w !! File.path file = Some B ->
  let r := run (world_handler hash) (uploadFile jobName authUser file info) w in
  disk (final r) = disk w /\
  match rows_with_key (AuthUserDto.id authUser) (hash B) (assets w) with
  | [] =>
      let a := newAsset authUser info (File.path file) (File.mimetype file)
                 (hash B) (assets w) in
      outcome r = Ok (AssetFileUploadResponseDto.mk (AssetEntity.id a)) /\
      isDuplicate (trace r) = false /\
      assets (final r) = (assets w ++ [a])%list
  | a :: _ =>
      outcome r = Ok (AssetFileUploadResponseDto.mk (AssetEntity.id a)) /\
      isDuplicate (trace r) = true /\
      assets (final r) = assets w
  end.
Proof.
  intros Hdisk. unfold uploadFile, outcome, final, trace. simpl.
  unfold calculateChecksum. rewrite Hdisk. simpl.
  unfold createUserAsset.
  destruct (rows_with_key (AuthUserDto.id authUser) (hash B) (assets w))
    as [|a rest] eqn:Hrows; simpl.
  - unfold queueAdd. simpl.
    by destruct (jobs_with_key _ (assetUploadedQueue w)).
  - unfold getAssetByChecksum. simpl. by rewrite Hrows.
Qed.

(** An upload leaves the registry as it is or adds one row under a key that
    was free. *)
Lemma world_upload_registry w authUser file info :
  let r := run (world_handler hash) (uploadFile jobName authUser file info) w in
  assets (final r) = assets w \/
  exists c, rows_with_key (AuthUserDto.id authUser) c (assets w) = [] /\
    assets (final r) =
      (assets w ++ [newAsset authUser info (File.path file) (File.mimetype file)
                      c (assets w)])%list.
Proof.
  unfold uploadFile, final. simpl.
  destruct (calculateChecksum hash (File.path file) w) as [c|e]; simpl; [|by left].
  unfold createUserAsset.
  destruct (rows_with_key (AuthUserDto.id authUser) c (assets w))
    as [|a rest] eqn:Hrows; simpl.
  - right. exists c. split; [done|]. unfold queueAdd. simpl.
    by destruct (jobs_with_key _ (assetUploadedQueue w)).
  - left. unfold getAssetByChecksum. simpl. by rewrite Hrows.
Qed.

(** The uniqueness of (owner, digest) and of identities is kept by every
    upload. *)
Lemma registry_ok_upload w authUser file info :
  registry_ok w ->
  registry_ok (final (run (world_handler hash) (uploadFile jobName authUser file info) w)).
Proof.
  intros [Hkeys Hids]. unfold registry_ok.
  destruct (world_upload_registry w authUser file info)
    as [Heq|(c & Hfree & Heq)]; cbv zeta in Heq; rewrite Heq; [done|].
  split; rewrite fmap_app; apply NoDup_app; (split; [done|]);
    (split; [|apply NoDup_singleton]); intros x Hx ->%list_elem_of_singleton.
  - by apply rows_with_key_none in Hfree.
  - by apply newAsset_id_fresh in Hx.
Qed.

Lemma registry_ok_empty : registry_ok emptyWorld.
Proof. split; apply NoDup_nil_2. Qed.

(** C1: in a registry that keeps its uniqueness constraint, two uploads of
    the same bytes by the same owner leave exactly one row under the owner
    and the digest of the bytes; both calls answer with that row's ID, and
    the second one answers as a duplicate, not as an error. *)
Theorem same_owner_same_bytes_one_asset w O file1 file2 info1 info2 B :
  registry_ok w ->
  disk w !! File.path file1 = Some B ->
  disk w !! File.path file2 = Some B ->
  let r1 := run (world_handler hash) (uploadFile jobName O file1 info1) w in
  let r2 := run (world_handler hash) (uploadFile jobName O file2 info2) (final r1) in
  exists a,
    rows_with_key (AuthUserDto.id O) (hash B) (assets (final r2)) = [a] /\
    outcome r1 = Ok (AssetFileUploadResponseDto.mk (AssetEntity.id a)) /\
    outcome r2 = Ok (AssetFileUploadResponseDto.mk (AssetEntity.id a)) /\
    isDuplicate (trace r2) = true.
Proof.
  intros [Hkeys _] H1 H2 r1 r2.
  destruct (world_upload w O file1 info1 B H1) as [Hd1 Hr1]. fold r1 in Hd1, Hr1.
  assert (disk (final r1) !! File.path file2 = Some B) as H2' by by rewrite Hd1.
  destruct (world_upload (final r1) O file2 info2 B H2') as [_ Hr2]. fold r2 in Hr2.
  destruct (rows_with_key (AuthUserDto.id O) (hash B) (assets w))
    as [|a rest] eqn:Hrows.
  - destruct Hr1 as (Ho1 & _ & Ha1). cbv zeta in Ho1, Ha1.
    set (a := newAsset O info1 (File.path file1) (File.mimetype file1) (hash B)
                (assets w)) in *.
    pose proof (rows_with_key_snoc a (assets w)) as Hsnoc.
    change (AssetEntity.userId a) with (AuthUserDto.id O) in Hsnoc.
    change (AssetEntity.checksum a) with (hash B) in Hsnoc.
    rewrite Hrows in Hsnoc. simpl in Hsnoc.
    rewrite Ha1, Hsnoc in Hr2. destruct Hr2 as (Ho2 & Hdup & Ha2).
    exists a. by rewrite Ha2, Hsnoc.
  - destruct Hr1 as (Ho1 & _ & Ha1). rewrite Ha1, Hrows in Hr2.
    destruct Hr2 as (Ho2 & Hdup & Ha2). exists a. split; [|done].
    rewrite Ha2, Hrows. f_equal. by eapply rows_with_key_unique.
Qed.

(** The row an upload of readable bytes answers with is in the registry,
    under the uploading owner and the digest of the bytes. *)
Lemma world_upload_row w authUser file info B :
  disk w !! File.path file = Some B ->
  let r := run (world_handler hash) (uploadFile jobName authUser file info) w in
  exists a,
    outcome r = Ok (AssetFileUploadResponseDto.mk (AssetEntity.id a)) /\
    a ∈ assets (final r) /\
    asset_key a = (AuthUserDto.id authUser, hash B).
Proof.
  intros Hdisk r. destruct (world_upload w authUser file info B Hdisk) as [_ Hr].
  fold r in Hr.
  destruct (rows_with_key (AuthUserDto.id authUser) (hash B) (assets w))
    as [|a rest] eqn:Hrows.
  - destruct Hr as (Ho & _ & Ha). eexists. split; [exact Ho|]. split; [|done].
    rewrite Ha. apply elem_of_app. right. apply list_elem_of_here.
  - destruct Hr as (Ho & _ & Ha). exists a. split; [done|].
    assert (a ∈ rows_with_key (AuthUserDto.id authUser) (hash B) (assets w)) as Hin
      by (rewrite Hrows; apply list_elem_of_here).
    apply elem_of_rows_with_key in Hin as (Hin & Hu & Hc).
    split; [by rewrite Ha|]. unfold asset_key. by rewrite Hu, Hc.
Qed.

Lemma world_upload_keeps_rows w authUser file info a :
  a ∈ assets w ->
  a ∈ assets (final (run (world_handler hash) (uploadFile jobName authUser file info) w)).
Proof.
  intros Ha.
  destruct (world_upload_registry w authUser file info)
    as [Heq|(c & _ & Heq)]; cbv zeta in Heq; rewrite Heq; [done|].
  apply elem_of_app. by left.
Qed.

(** C8: every registry operation of an upload, the insert and the read-back
    alike, carries the uploading owner's ID together with the checksum; and
    in a registry whose uniqueness key is the pair (owner ID, digest), two
    different owners uploading the same bytes are answered with two rows of
    different identity, one under each owner. *)
Theorem owners_are_isolated :
  (forall St (h : @handler Upload.call St) s authUser file info op,
     let r := run h (uploadFile jobName authUser file info) s in
     op ∈ registry_ops (trace r) ->
     exists c, first_answer hash_outcome (trace r) = Some (Ok c) /\
               (op = Insert (AuthUserDto.id authUser) c \/
                op = Lookup (AuthUserDto.id authUser) c)) /\
  (forall w O1 O2 file1 file2 info1 info2 B,
     registry_ok w ->
     AuthUserDto.id O1 ≠ AuthUserDto.id O2 ->
     disk w !! File.path file1 = Some B ->
     disk w !! File.path file2 = Some B ->
     let r1 := run (world_handler hash) (uploadFile jobName O1 file1 info1) w in
     let r2 := run (world_handler hash) (uploadFile jobName O2 file2 info2) (final r1) in
     exists a1 a2,
       outcome r1 = Ok (AssetFileUploadResponseDto.mk (AssetEntity.id a1)) /\
       outcome r2 = Ok (AssetFileUploadResponseDto.mk (AssetEntity.id a2)) /\
       AssetEntity.id a1 ≠ AssetEntity.id a2 /\
       a1 ∈ assets (final r2) /\ a2 ∈ assets (final r2) /\
       asset_key a1 = (AuthUserDto.id O1, hash B) /\
       asset_key a2 = (AuthUserDto.id O2, hash B)).
Proof.
  split; [intros; by eapply registry_ops_scoped|].
  intros w O1 O2 file1 file2 info1 info2 B Hok Hne H1 H2 r1 r2.
  destruct (world_upload w O1 file1 info1 B H1) as [Hd1 _]. fold r1 in Hd1.
  destruct (world_upload_row w O1 file1 info1 B H1) as (a1 & Ho1 & Hin1 & Hk1).
  fold r1 in Ho1, Hin1.
  assert (disk (final r1) !! File.path file2 = Some B) as H2' by by rewrite Hd1.
  destruct (world_upload_row (final r1) O2 file2 info2 B H2') as (a2 & Ho2 & Hin2 & Hk2).
  fold r2 in Ho2, Hin2.
  assert (a1 ∈ assets (final r2)) as Hin1' by by apply world_upload_keeps_rows.
  assert (registry_ok (final r2)) as [_ Hids]
    by by do 2 apply registry_ok_upload.
  exists a1, a2. repeat split; try done.
  intros Hid. apply (same_id_same_row _ _ _ Hids Hin1' Hin2) in Hid. subst a2.
  rewrite Hk1 in Hk2. by simplify_eq.
Qed.

(** C9: the job ID of every submission an upload makes is the ID of the
    asset the job carries; and a queue that takes a known job key as a no-op
    is left unchanged by a second submission for the same asset, with one
    job under the asset's ID. *)
Theorem job_key_is_asset_id :
  (forall St (h : @handler Upload.call St) s authUser file info,
     let r := run h (uploadFile jobName authUser file info) s in
     Forall (λ j, sub_jobId j = AssetEntity.id (IAssetUploadedJob.asset (sub_data j)))
       (enqueued (trace r))) /\
  (forall w a fileName fileName',
     let submit f w :=
       (world_handler hash _
          (Upload.QueueAdd jobName (IAssetUploadedJob.mk a f) (AssetEntity.id a)) w).2 in
     submit fileName' (submit fileName w) = submit fileName w /\
     (jobs_with_key (AssetEntity.id a) (assetUploadedQueue w) = [] ->
      jobs_with_key (AssetEntity.id a)
        (assetUploadedQueue (submit fileName' (submit fileName w))) =
        [{| sub_name := jobName; sub_data := IAssetUploadedJob.mk a fileName;
            sub_jobId := AssetEntity.id a |}])).
Proof.
  split; [intros; apply job_id_is_asset_id|].
  intros w a f f'. simpl. unfold queueAdd. simpl.
  destruct (jobs_with_key (AssetEntity.id a) (assetUploadedQueue w))
    as [|j q] eqn:Hq; simpl.
  - unfold jobs_with_key in *. rewrite filter_app, Hq, filter_cons. simpl.
    rewrite decide_True by done. simpl. split; [done|]. intros _.
    by rewrite filter_app, Hq, filter_cons, decide_True.
  - rewrite Hq. split; [done|]. intros [=].
Qed.

End WorldUpload.

(** * Properties of [deleteAsset] under any environment *)

Section RunBind.
Context {E : Type -> Type} {St : Type}.

Lemma run_bind {A B} (h : @handler E St) (p : prog E A) (k : A -> prog E B) s :
  run h (p ≫= k) s =
  match run h p s with
  | (Ok a, s1, tr) => let '(r, s2, tr') := run h (k a) s1 in (r, s2, (tr ++ tr')%list)
  | (Throw e, s1, tr) => (Throw e, s1, tr)
  end.
Proof.
  unfold mbind, prog_bind.
  revert s. induction p as [a|e|X c k' IH]; intros s; simpl.
  - by destruct (run h (k a) s) as [[r s2] tr'].
  - done.
  - destruct (h X c s) as [x s1]. rewrite IH.
    destruct (run h (k' x) s1) as [[[a|e] s2] tr]; [|done].
    by destruct (run h (k a) s2) as [[r s3] tr'].
Qed.

End RunBind.

Section DeleteClaims.
Import Delete.
Context {St : Type}.
Variables (h : @handler call St) (authUser : AuthUserDto.t).

Lemma files_scheduled_app (tr1 tr2 : list (event call)) :
  files_scheduled (tr1 ++ tr2) = (files_scheduled tr1 ++ files_scheduled tr2)%list.
Proof. unfold files_scheduled. by rewrite omap_app, concat_app. Qed.

(** The loop gathers the assets the service answered with, in order, and
    schedules nothing. *)
Lemma collectAssets_found ids : forall acc s,
  let r := run h (collectAssets authUser ids acc) s in
  files_scheduled (trace r) = [] /\
  forall l, outcome r = Ok l -> l = (acc ++ omap found (trace r))%list.
Proof.
  induction ids as [|i ids IH]; intros acc s; simpl.
  - split; [done|]. intros l [= <-]. by rewrite app_nil_r.
  - unfold trace, outcome in *. simpl.
    destruct (h _ (GetAssetById authUser i) s) as [[[a|]|e] s1]; simpl.
    + specialize (IH (acc ++ [a])%list s1).
      destruct (run h (collectAssets authUser ids (acc ++ [a])) s1) as [[r s2] tr].
      simpl in *. destruct IH as [Hs Hl]. split; [done|].
      intros l Hr. rewrite (Hl l Hr). by rewrite <- app_assoc.
    + specialize (IH acc s1).
      by destruct (run h (collectAssets authUser ids acc) s1) as [[r s2] tr].
    + split; [done|]. intros l [=].
Qed.

(** X12: whatever statuses the deletion reports, a request that completes
    hands to the delete queue the file of every asset the service found. *)
Lemma deleteAsset_schedules_all_found assetIds s res :
  let r := run h (deleteAsset authUser assetIds) s in
  outcome r = Ok res ->
  files_scheduled (trace r) = omap found (trace r).
Proof.
  unfold deleteAsset. cbv zeta. rewrite run_bind.
  pose proof (collectAssets_found (DeleteAssetDto.ids assetIds) [] s) as [Hs Hl].
  unfold trace, outcome in *.
  destruct (run h (collectAssets authUser (DeleteAssetDto.ids assetIds) []) s)
    as [[[l|e] s1] tr]; simpl in *; [|intros [=]].
  rewrite (Hl l eq_refl).
  destruct (h _ (DeleteAssetById authUser assetIds) s1) as [[res'|e] s2]; simpl;
    [|intros [=]].
  destruct (h _ (DeleteFileOnDisk (omap found tr)) s2) as [[q|] s3]; simpl;
    [intros [=]|].
  intros _. rewrite files_scheduled_app, Hs, omap_app. simpl.
  unfold files_scheduled. simpl. by rewrite !app_nil_r.
Qed.

(** ** Further properties of [deleteAsset] *)

(** The loop only looks assets up; it stops at the first lookup that
    rejects, and otherwise asks once for every requested ID, in order. *)
Lemma collectAssets_trace ids : forall acc s,
  let r := run h (collectAssets authUser ids acc) s in
  omap delete_request (trace r) = [] /\
  omap delete_job (trace r) = [] /\
  match outcome r with
  | Ok _ => omap lookup_asked (trace r) = (fun i => (authUser, i)) <$> ids /\
            omap lookup_failure (trace r) = []
  | Throw e => omap lookup_failure (trace r) = [e]
  end.
Proof.
  induction ids as [|i ids IH]; intros acc s; simpl; [done|].
  unfold trace, outcome in *. simpl.
  destruct (h _ (GetAssetById authUser i) s) as [[[a|]|e] s1]; simpl; [| |done].
  - specialize (IH (acc ++ [a])%list s1).
    destruct (run h (collectAssets authUser ids (acc ++ [a])) s1) as [[[l|e] s2] tr];
      simpl in *; destruct IH as (Hd & Hj & Hl); (split; [done|split; [done|]]);
      [|done].
    destruct Hl as [Hl Hf]. split; [f_equal; exact Hl|exact Hf].
  - specialize (IH acc s1).
    destruct (run h (collectAssets authUser ids acc) s1) as [[[l|e] s2] tr];
      simpl in *; destruct IH as (Hd & Hj & Hl); (split; [done|split; [done|]]);
      [|done].
    destruct Hl as [Hl Hf]. split; [f_equal; exact Hl|exact Hf].
Qed.

(** The ways through [deleteAsset]: a lookup rejects; the deletion
    rejects; or the deletion answers and the gathered assets go to the
    delete queue, which rejects or accepts them. *)
Lemma deleteAsset_run assetIds s :
  let rc := run h (collectAssets authUser (DeleteAssetDto.ids assetIds) []) s in
  let r := run h (deleteAsset authUser assetIds) s in
  match outcome rc with
  | Throw e => outcome r = Throw e /\ trace r = trace rc
  | Ok l =>
      (exists e, outcome r = Throw e /\
         trace r = (trace rc ++ [Ev (DeleteAssetById authUser assetIds) (Throw e)])%list) \/
      (exists res q, outcome r = Throw (Error q) /\
         trace r = (trace rc ++ [Ev (DeleteAssetById authUser assetIds) (Ok res);
                                 Ev (DeleteFileOnDisk l) (Some q)])%list) \/
      (exists res, outcome r = Ok res /\
         trace r = (trace rc ++ [Ev (DeleteAssetById authUser assetIds) (Ok res);
                                 Ev (DeleteFileOnDisk l) None])%list)
  end.
Proof.
  unfold deleteAsset. cbv zeta. rewrite run_bind. unfold trace, outcome.
  destruct (run h (collectAssets authUser (DeleteAssetDto.ids assetIds) []) s)
    as [[[l|e] s1] tr]; simpl; [|done].
  destruct (h _ (DeleteAssetById authUser assetIds) s1) as [[res|e] s2]; simpl.
  - destruct (h _ (DeleteFileOnDisk l) s2) as [[q|] s3]; simpl; right;
      [left|right]; eauto.
  - left. eauto.
Qed.

Lemma files_scheduled_jobs (tr : list (event call)) :
  files_scheduled tr = concat (omap delete_job tr).
Proof.
  reflexivity.
Qed.

Lemma no_delete_request_no_outcome (tr : list (event call)) :
  omap delete_request tr = [] -> omap delete_outcome tr = [].
Proof.
  induction tr as [|[X c x] tr IH]; [done|].
  destruct c; simpl; [by apply IH|discriminate|by apply IH].
Qed.

Ltac by_delete_run assetIds s :=
  let Hc := fresh "Hc" in
  let Hr := fresh "Hr" in
  let Ho := fresh "Ho" in
  let Ht := fresh "Ht" in
  let Hcd := fresh "Hcd" in
  let Hcj := fresh "Hcj" in
  let Hcl := fresh "Hcl" in
  let Hcf := fresh "Hcf" in
  pose proof (collectAssets_trace (DeleteAssetDto.ids assetIds) [] s) as Hc;
  pose proof (deleteAsset_run assetIds s) as Hr;
  cbv zeta in Hc, Hr;
  destruct (outcome (run h (collectAssets authUser (DeleteAssetDto.ids assetIds) []) s))
    as [?l|?e];
  [destruct Hc as (Hcd & Hcj & Hcl & Hcf);
   destruct Hr as [(?e & Ho & Ht)|[(?res & ?q & Ho & Ht)|(?res & Ho & Ht)]]
  |destruct Hc as (Hcd & Hcj & Hcf); destruct Hr as [Ho Ht]];
  rewrite ?Ho, ?Ht in *; rewrite ?omap_app; simpl;
  rewrite ?Hcd, ?Hcj, ?Hcl, ?Hcf; simpl.

(** X13: a delete request that completes has asked the service once to
    delete, with the caller and the whole list of IDs it received, found or
    not, and returns the statuses the service answered as they are; after
    that it has handed one job to the delete queue. *)
Theorem deleteAsset_forwards_and_returns assetIds s res :
  let r := run h (deleteAsset authUser assetIds) s in
  outcome r = Ok res ->
  omap delete_request (trace r) = [(authUser, assetIds)] /\
  head (omap delete_outcome (trace r)) = Some (Ok res) /\
  exists before l,
    trace r = (before ++ [Ev (DeleteAssetById authUser assetIds) (Ok res);
                          Ev (DeleteFileOnDisk l) None])%list /\
    omap delete_job before = [].
Proof.
  intros r. subst r. by_delete_run assetIds s; try done.
  intros [= ->]. split; [done|]. split; [|eauto].
  by rewrite no_delete_request_no_outcome.
Qed.

(** X14: a delete request that completes has looked up every requested ID
    once, in the order given and under the caller's identity, repeated IDs
    included. *)
Theorem deleteAsset_one_lookup_per_id assetIds s res :
  let r := run h (deleteAsset authUser assetIds) s in
  outcome r = Ok res ->
  omap lookup_asked (trace r) = (fun i => (authUser, i)) <$> DeleteAssetDto.ids assetIds.
Proof.
  intros r. subst r. by_delete_run assetIds s; try done.
  intros _. by rewrite app_nil_r.
Qed.

(** X15: when a lookup rejects, the request ends with that error before the
    service is asked to delete anything and before anything is handed to the
    delete queue. *)
Theorem deleteAsset_lookup_failure_aborts assetIds s e :
  let r := run h (deleteAsset authUser assetIds) s in
  e ∈ omap lookup_failure (trace r) ->
  outcome r = Throw e /\
  omap delete_request (trace r) = [] /\
  omap delete_job (trace r) = [].
Proof.
  intros r. subst r. by_delete_run assetIds s.
  - by intros ?%not_elem_of_nil.
  - by intros ?%not_elem_of_nil.
  - by intros ?%not_elem_of_nil.
  - by intros ->%list_elem_of_singleton.
Qed.

(** X16: when the service rejects the deletion, the request ends with that
    error and nothing is handed to the delete queue, whatever the lookups
    found. *)
Theorem deleteAsset_failure_schedules_nothing assetIds s e :
  let r := run h (deleteAsset authUser assetIds) s in
  head (omap delete_outcome (trace r)) = Some (Throw e) ->
  outcome r = Throw e /\
  omap delete_job (trace r) = [] /\
  files_scheduled (trace r) = [].
Proof.
  intros r. subst r. rewrite files_scheduled_jobs.
  by_delete_run assetIds s.
  - rewrite no_delete_request_no_outcome by done. by intros [= ->].
  - rewrite no_delete_request_no_outcome by done. intros [=].
  - rewrite no_delete_request_no_outcome by done. intros [=].
  - rewrite no_delete_request_no_outcome by done. intros [=].
Qed.

(** X17: a delete request with no IDs makes no lookup, and still asks the
    service to delete and, when that answers, hands one job with no assets
    to the delete queue. *)
Theorem deleteAsset_no_ids assetIds s :
  let r := run h (deleteAsset authUser assetIds) s in
  DeleteAssetDto.ids assetIds = [] ->
  omap lookup_asked (trace r) = [] /\
  omap delete_request (trace r) = [(authUser, assetIds)] /\
  (forall res, outcome r = Ok res -> omap delete_job (trace r) = [[]]).
Proof.
  intros r Hids. subst r. unfold deleteAsset, trace, outcome. rewrite Hids. simpl.
  destruct (h _ (DeleteAssetById authUser assetIds) s) as [[res|e] s1]; simpl.
  - by destruct (h _ (DeleteFileOnDisk []) s1) as [[q|] s2].
  - repeat split. intros res [=].
Qed.

Lemma found_le_asked (tr : list (event call)) :
  length (omap found tr) <= length (omap lookup_asked tr).
Proof.
  induction tr as [|[X c x] tr IH]; [done|].
  destruct c; simpl; [|done..].
  destruct x as [[a|]|e]; simpl;
    [apply (proj1 (Nat.succ_le_mono _ _)), IH | apply Nat.le_le_succ_r, IH..].
Qed.

(** X18: a delete request never hands more assets to the delete queue than
    IDs were requested. *)
Theorem deleteAsset_schedules_at_most_requested assetIds s :
  let r := run h (deleteAsset authUser assetIds) s in
  length (files_scheduled (trace r)) <= length (DeleteAssetDto.ids assetIds).
Proof.
  intros r. subst r.
  pose proof (collectAssets_found (DeleteAssetDto.ids assetIds) [] s) as [_ Hfound].
  cbv zeta in Hfound.
  pose proof (found_le_asked
                (trace (run h (collectAssets authUser (DeleteAssetDto.ids assetIds) []) s)))
    as Hle.
  rewrite files_scheduled_jobs.
  by_delete_run assetIds s; try lia.
  all: rewrite (Hfound _ eq_refl), app_nil_r; simpl;
    rewrite Hcl, length_fmap in Hle; done.
Qed.

End DeleteClaims.

(** * The properties at the sample requests *)

(** C7: [u2] asks to delete [a1]; the service finds the asset and refuses the
    deletion with status [FORBIDDEN], and the request still hands the file
    of [a1], owned by [u1], to the delete queue. *)
Theorem deleteAsset_schedules_refused_asset :
  let r := Sample.delete Sample.u2 ["a1"] in
  outcome r = Ok [DeleteAssetResponseDto.mk "a1" FORBIDDEN] /\
  files_scheduled (trace r) = [Sample.stored1] /\
  ~ only_deleted_scheduled Sample.u2 [DeleteAssetResponseDto.mk "a1" FORBIDDEN] (trace r).
Proof.
  split; [reflexivity|]. split; [reflexivity|].
  intros Hclaim. destruct (Hclaim Sample.stored1) as [Howner _].
  - apply list_elem_of_here.
  - discriminate Howner.
Qed.

(** C2 as stated fails: the insert is rejected for the constraint, the
    delete queue rejects the hand-over, and the request ends with the queue's
    error without a read-back. *)
Lemma conflict_without_read_back :
  let r := Sample.upload MoreSamples.conflictQueueDown in
  first_answer insert_outcome (trace r) = Some (Throw Sample.conflict) /\
  registry_ops (trace r) = [Insert "u1" Sample.d1] /\
  outcome r = Throw (Error Sample.redisDown) /\
  ~ read_back_on_conflict (outcome r) (trace r).
Proof.
  split; [reflexivity|]. split; [reflexivity|]. split; [reflexivity|].
  intros Hclaim. destruct Hclaim as (existed & Hl & _); [by eexists|].
  discriminate Hl.
Qed.

Lemma insert_first_fallback_on_conflict_witness :
  let r := Sample.upload Sample.secondUpload in
  head (registry_ops (trace r)) = Some (Insert "u1" Sample.d1) /\
  cleanup_rejections (trace r) = [] /\
  (exists c, registry_ops (trace r) = [Insert "u1" c; Lookup "u1" c]) /\
  outcome r = Ok (AssetFileUploadResponseDto.mk "a0") /\
  isDuplicate (trace r) = true /\
  outcome (Sample.upload Sample.storeFails) =
    Throw (BadRequestException "Error uploading file"
             "QueryFailedError: terminating connection").
Proof.
  pose proof (insert_first_fallback_on_conflict "asset-uploaded" Sample.u1
                Sample.upload1 Sample.info
                (Script.upload_handler Sample.secondUpload) tt)
    as (Hfirst & Hiff & Hdup & _).
  pose proof (insert_first_fallback_on_conflict "asset-uploaded" Sample.u1
                Sample.upload1 Sample.info
                (Script.upload_handler Sample.storeFails) tt)
    as (_ & _ & _ & Hother).
  split; [exact (Hfirst Sample.d1 eq_refl)|].
  split; [reflexivity|].
  split; [exact (proj1 Hiff (conj (ex_intro _ _ eq_refl) eq_refl))|].
  split; [exact (proj1 (Hdup Sample.a0 eq_refl))|].
  split; [exact (proj2 (Hdup Sample.a0 eq_refl))|].
  refine (proj2 (proj2 (Hother Sample.dbDown eq_refl _)) eq_refl).
  intros m. discriminate.
Defined.

Lemma hasher_failure_skips_cleanup_witness :
  let r := Sample.upload Sample.hasherFails in
  first_answer hash_outcome (trace r) = Some (Throw Sample.unreadable) /\
  outcome r = Throw Sample.unreadable /\
  handed_to_cleanup (trace r) = [] /\
  trace r = [Ev (Upload.CalculateChecksum "upload/tmp-1") (Throw Sample.unreadable)].
Proof.
  split; [reflexivity|].
  apply (hasher_failure_skips_cleanup "asset-uploaded" Sample.u1 Sample.upload1
           Sample.info (Script.upload_handler Sample.hasherFails) tt).
  reflexivity.
Defined.

(** C4 as stated fails: a newly stored asset is followed by one submission,
    not by one per processor kind. *)
Lemma one_job_per_kind_fails :
  let r := Sample.upload Sample.firstUpload in
  first_answer insert_outcome (trace r) = Some (Ok (Some Sample.a1)) /\
  outcome r = Ok (AssetFileUploadResponseDto.mk "a1") /\
  length (enqueued (trace r)) = 1 /\
  ~ one_job_per_kind Sample.a1 (enqueued (trace r)).
Proof.
  split; [reflexivity|]. split; [reflexivity|]. split; [reflexivity|].
  intros [Hlen _]. discriminate Hlen.
Qed.

Lemma one_job_keyed_by_asset_witness :
  let r := Sample.upload Sample.firstUpload in
  first_answer insert_outcome (trace r) = Some (Ok (Some Sample.a1)) /\
  enqueued (trace r) =
    [{| sub_name := "asset-uploaded";
        sub_data := IAssetUploadedJob.mk Sample.a1 "IMG_0001.jpg";
        sub_jobId := "a1" |}].
Proof.
  split; [reflexivity|].
  apply (one_job_keyed_by_asset "asset-uploaded" Sample.u1 Sample.upload1
           Sample.info (Script.upload_handler Sample.firstUpload) tt).
  reflexivity.
Defined.

(** C5 as stated fails: when the queue rejects the job of the stored asset
    [a1], the upload is rejected and the file is handed to the delete
    queue. *)
Lemma enqueue_failure_not_tolerated :
  let r := Sample.upload Sample.queueDown in
  first_answer insert_outcome (trace r) = Some (Ok (Some Sample.a1)) /\
  first_answer add_outcome (trace r) = Some (Some Sample.redisDown) /\
  outcome r =
    Throw (BadRequestException "Error uploading file" "Error: Connection is closed.") /\
  handed_to_cleanup (trace r) = ["upload/tmp-1"] /\
  ~ enqueue_failure_tolerated Sample.a1 Sample.upload1 (outcome r) (trace r).
Proof.
  repeat (split; [reflexivity|]).
  intros [Hout _]. discriminate Hout.
Qed.

Lemma enqueue_failure_rejects_upload_witness :
  let r := Sample.upload Sample.queueDown in
  first_answer insert_outcome (trace r) = Some (Ok (Some Sample.a1)) /\
  first_answer add_outcome (trace r) = Some (Some Sample.redisDown) /\
  cleanup_rejections (trace r) = [] /\
  (exists c, registry_ops (trace r) = [Insert "u1" c]) /\
  outcome r =
    Throw (BadRequestException "Error uploading file" "Error: Connection is closed.") /\
  logged (trace r) = ["Error uploading file Error: Connection is closed."].
Proof.
  destruct (enqueue_failure_rejects_upload "asset-uploaded" Sample.u1 Sample.upload1
              Sample.info (Script.upload_handler Sample.queueDown) tt Sample.a1
              Sample.redisDown eq_refl eq_refl) as (_ & Hreg & Hrej).
  split; [reflexivity|]. split; [reflexivity|]. split; [reflexivity|].
  split; [exact Hreg|]. exact (Hrej eq_refl).
Defined.

Lemma duplicate_enqueues_nothing_witness :
  let r := Sample.upload Sample.secondUpload in
  first_answer insert_outcome (trace r) = Some (Throw Sample.conflict) /\
  is_unique_violation Sample.conflict = true /\
  first_answer lookup_outcome (trace r) = Some (Ok Sample.a0) /\
  enqueued (trace r) = [] /\
  handed_to_cleanup (trace r) = ["upload/tmp-1"] /\
  outcome r = Ok (AssetFileUploadResponseDto.mk "a0").
Proof.
  destruct (duplicate_enqueues_nothing "asset-uploaded" Sample.u1 Sample.upload1
              Sample.info (Script.upload_handler Sample.secondUpload) tt
              Sample.conflict Sample.a0 eq_refl eq_refl eq_refl)
    as (Hq & Hc & _ & Ho).
  split; [reflexivity|]. split; [reflexivity|]. split; [reflexivity|].
  split; [exact Hq|]. split; [exact Hc|exact Ho].
Defined.



Lemma registry_ok_sample : registry_ok Sample.world.
Proof. split; apply NoDup_nil_2. Qed.

Lemma same_owner_same_bytes_one_asset_witness :
  let upload file w :=
    run (world_handler Sample.hash) (uploadFile "asset-uploaded" Sample.u1 file Sample.info) w in
  let r1 := upload Sample.upload1 Sample.world in
  let r2 := upload Sample.upload2 (final r1) in
  registry_ok Sample.world /\
  disk Sample.world !! "upload/tmp-1" = Some Sample.ABC /\
  disk Sample.world !! "upload/tmp-2" = Some Sample.ABC /\
  exists a,
    rows_with_key "u1" Sample.ABC (assets (final r2)) = [a] /\
    outcome r1 = Ok (AssetFileUploadResponseDto.mk (AssetEntity.id a)) /\
    outcome r2 = Ok (AssetFileUploadResponseDto.mk (AssetEntity.id a)) /\
    isDuplicate (trace r2) = true.
Proof.
  split; [exact registry_ok_sample|].
  split; [vm_compute; reflexivity|]. split; [vm_compute; reflexivity|].
  apply (same_owner_same_bytes_one_asset Sample.hash "asset-uploaded" Sample.world
           Sample.u1 Sample.upload1 Sample.upload2 Sample.info Sample.info Sample.ABC).
  - exact registry_ok_sample.
  - vm_compute; reflexivity.
  - vm_compute; reflexivity.
Defined.

Lemma owners_are_isolated_witness :
  let r1 := run (world_handler Sample.hash)
              (uploadFile "asset-uploaded" Sample.u1 Sample.upload1 Sample.info)
              Sample.world in
  let r2 := run (world_handler Sample.hash)
              (uploadFile "asset-uploaded" Sample.u2 Sample.upload2 Sample.info)
              (final r1) in
  AuthUserDto.id Sample.u1 ≠ AuthUserDto.id Sample.u2 /\
  exists a1 a2,
    outcome r1 = Ok (AssetFileUploadResponseDto.mk (AssetEntity.id a1)) /\
    outcome r2 = Ok (AssetFileUploadResponseDto.mk (AssetEntity.id a2)) /\
    AssetEntity.id a1 ≠ AssetEntity.id a2 /\
    a1 ∈ assets (final r2) /\ a2 ∈ assets (final r2) /\
    asset_key a1 = ("u1", Sample.ABC) /\
    asset_key a2 = ("u2", Sample.ABC).
Proof.
  split; [discriminate|].
  apply (proj2 (owners_are_isolated Sample.hash "asset-uploaded") Sample.world
           Sample.u1 Sample.u2 Sample.upload1 Sample.upload2 Sample.info Sample.info
           Sample.ABC).
  - exact registry_ok_sample.
  - discriminate.
  - vm_compute; reflexivity.
  - vm_compute; reflexivity.
Defined.

Lemma job_key_is_asset_id_witness :
  let submit f w :=
    (world_handler Sample.hash _
       (Upload.QueueAdd "asset-uploaded" (IAssetUploadedJob.mk Sample.a1 f) "a1") w).2 in
  jobs_with_key "a1" (assetUploadedQueue Sample.world) = [] /\
  jobs_with_key "a1"
    (assetUploadedQueue (submit "IMG_0001 (1).jpg" (submit "IMG_0001.jpg" Sample.world))) =
    [{| sub_name := "asset-uploaded";
        sub_data := IAssetUploadedJob.mk Sample.a1 "IMG_0001.jpg";
        sub_jobId := "a1" |}].
Proof.
  split; [reflexivity|].
  apply (proj2 (proj2 (job_key_is_asset_id Sample.hash "asset-uploaded") Sample.world
                  Sample.a1 "IMG_0001.jpg" "IMG_0001 (1).jpg")).
  reflexivity.
Defined.

(** * The further properties at the sample requests *)

Lemma upload_rejections_classified_witness :
  let r := Sample.upload Sample.storeFails in
  outcome r = Throw (BadRequestException "Error uploading file"
                       "QueryFailedError: terminating connection") /\
  logged (trace r) = ["Error uploading file QueryFailedError: terminating connection"].
Proof.
  destruct (upload_rejections_classified "asset-uploaded" Sample.u1 Sample.upload1
              Sample.info (Script.upload_handler Sample.storeFails) tt _ eq_refl)
    as [Hh|[(e0 & Hi & Hv & Hl)|[(q & Hq & _)|(d & Hd & Hlog)]]].
  - discriminate Hh.
  - discriminate Hl.
  - discriminate Hq.
  - split; [reflexivity|]. injection Hd as <-. exact Hlog.
Defined.

Lemma upload_answers_classified_witness :
  let r := Sample.upload Sample.secondUpload in
  outcome r = Ok (AssetFileUploadResponseDto.mk "a0") /\
  http_status (trace r) = 200 /\
  handed_to_cleanup (trace r) = ["upload/tmp-1"].
Proof.
  destruct (upload_answers_classified "asset-uploaded" Sample.u1 Sample.upload1
              Sample.info (Script.upload_handler Sample.secondUpload) tt _ eq_refl)
    as [(a & Hi & _)|(existed & _ & _ & Hs & _ & Hc)].
  - discriminate Hi.
  - split; [reflexivity|]. split; [exact Hs|exact Hc].
Defined.

Lemma read_back_failure_escapes_witness :
  let r := Sample.upload MoreSamples.readBackFails in
  first_answer insert_outcome (trace r) = Some (Throw Sample.conflict) /\
  first_answer lookup_outcome (trace r) = Some (Throw MoreSamples.notFound) /\
  outcome r = Throw MoreSamples.notFound /\
  logged (trace r) = [] /\
  http_status (trace r) = 201 /\
  enqueued (trace r) = [] /\
  handed_to_cleanup (trace r) = ["upload/tmp-1"].
Proof.
  split; [reflexivity|]. split; [reflexivity|].
  apply (read_back_failure_escapes "asset-uploaded" Sample.u1 Sample.upload1
           Sample.info (Script.upload_handler MoreSamples.readBackFails) tt
           Sample.conflict MoreSamples.notFound); reflexivity.
Defined.

Lemma no_asset_cleans_twice_witness :
  let r := Sample.upload Sample.noAsset in
  first_answer insert_outcome (trace r) = Some (Ok None) /\
  cleanup_rejections (trace r) = [] /\
  handed_to_cleanup (trace r) = ["upload/tmp-1"; "upload/tmp-1"] /\
  scheduled_for_cleanup (trace r) = ["upload/tmp-1"; "upload/tmp-1"] /\
  outcome r = Throw (BadRequestException "Error uploading file"
                       "BadRequestException: Asset not created") /\
  logged (trace r) = ["Error uploading file BadRequestException: Asset not created"].
Proof.
  destruct (no_asset_cleans_twice "asset-uploaded" Sample.u1 Sample.upload1
              Sample.info (Script.upload_handler Sample.noAsset) tt eq_refl)
    as [Hh Hrest].
  split; [reflexivity|]. split; [reflexivity|]. split; [exact Hh|].
  exact (Hrest eq_refl).
Defined.

Lemma enqueue_failure_deletes_stored_path_witness :
  let r := Sample.upload Sample.queueDown in
  first_answer insert_outcome (trace r) = Some (Ok (Some Sample.a1)) /\
  first_answer add_outcome (trace r) = Some (Some Sample.redisDown) /\
  exists m c, first_answer insert_request (trace r) = Some ("upload/tmp-1", m, c) /\
              handed_to_cleanup (trace r) = ["upload/tmp-1"].
Proof.
  split; [reflexivity|]. split; [reflexivity|].
  apply (enqueue_failure_deletes_stored_path "asset-uploaded" Sample.u1 Sample.upload1
           Sample.info (Script.upload_handler Sample.queueDown) tt Sample.a1
           Sample.redisDown); reflexivity.
Defined.

Lemma cleanup_after_hash_witness :
  let r := Sample.upload Sample.firstUpload in
  first_answer hash_outcome (trace r) = Some (Ok Sample.d1) /\
  handed_to_cleanup (trace r) = [] /\
  exists a, first_answer insert_outcome (trace r) = Some (Ok (Some a)) /\
            outcome r = Ok (AssetFileUploadResponseDto.mk (AssetEntity.id a)).
Proof.
  split; [reflexivity|]. split; [reflexivity|].
  apply (cleanup_after_hash "asset-uploaded" Sample.u1 Sample.upload1
           Sample.info (Script.upload_handler Sample.firstUpload) tt Sample.d1 eq_refl).
  reflexivity.
Defined.

Lemma cleanup_only_uploaded_file_witness :
  "upload/tmp-1" ∈ handed_to_cleanup (trace (Sample.upload Sample.secondUpload)) /\
  "upload/tmp-1" = File.path Sample.upload1.
Proof.
  assert ("upload/tmp-1" ∈ handed_to_cleanup (trace (Sample.upload Sample.secondUpload)))
    as Hin by apply list_elem_of_here.
  split; [exact Hin|].
  exact (cleanup_only_uploaded_file "asset-uploaded" Sample.u1 Sample.upload1
           Sample.info (Script.upload_handler Sample.secondUpload) tt _ Hin).
Defined.

Lemma insert_gets_hashed_file_witness :
  let r := Sample.upload Sample.firstUpload in
  first_answer insert_request (trace r) = Some ("upload/tmp-1", "image/jpeg", Sample.d1) /\
  first_answer hash_request (trace r) = Some "upload/tmp-1" /\
  first_answer hash_outcome (trace r) = Some (Ok Sample.d1).
Proof.
  split; [reflexivity|].
  exact (proj2 (proj2 (insert_gets_hashed_file "asset-uploaded" Sample.u1 Sample.upload1
           Sample.info (Script.upload_handler Sample.firstUpload) tt _ _ _ eq_refl))).
Defined.

Lemma deleteAsset_schedules_all_found_witness :
  let r := MoreSamples.delete MoreSamples.deletes ["a1"; "zz"; "a2"] in
  outcome r = Ok [DeleteAssetResponseDto.mk "a1" SUCCESS;
                  DeleteAssetResponseDto.mk "zz" NOT_FOUND;
                  DeleteAssetResponseDto.mk "a2" SUCCESS] /\
  files_scheduled (trace r) = omap found (trace r) /\
  omap found (trace r) = [Sample.stored1; MoreSamples.stored2].
Proof.
  split; [reflexivity|]. split; [|reflexivity].
  apply (deleteAsset_schedules_all_found (Script.delete_handler MoreSamples.deletes)
           Sample.u1 (DeleteAssetDto.mk ["a1"; "zz"; "a2"]) tt _ eq_refl).
Defined.

Lemma deleteAsset_forwards_and_returns_witness :
  let r := MoreSamples.delete MoreSamples.deletes ["a1"; "zz"] in
  outcome r = Ok [DeleteAssetResponseDto.mk "a1" SUCCESS;
                  DeleteAssetResponseDto.mk "zz" NOT_FOUND] /\
  omap delete_request (trace r) = [(Sample.u1, DeleteAssetDto.mk ["a1"; "zz"])].
Proof.
  split; [reflexivity|].
  exact (proj1 (deleteAsset_forwards_and_returns
                  (Script.delete_handler MoreSamples.deletes)
                  Sample.u1 (DeleteAssetDto.mk ["a1"; "zz"]) tt _ eq_refl)).
Defined.

Lemma deleteAsset_one_lookup_per_id_witness :
  let r := MoreSamples.delete MoreSamples.deletes ["a1"; "zz"; "a1"] in
  omap lookup_asked (trace r) = [(Sample.u1, "a1"); (Sample.u1, "zz"); (Sample.u1, "a1")] /\
  files_scheduled (trace r) = [Sample.stored1; Sample.stored1].
Proof.
  split; [|reflexivity].
  exact (deleteAsset_one_lookup_per_id (Script.delete_handler MoreSamples.deletes)
           Sample.u1 (DeleteAssetDto.mk ["a1"; "zz"; "a1"]) tt _ eq_refl).
Defined.

Lemma deleteAsset_lookup_failure_aborts_witness :
  let r := MoreSamples.delete MoreSamples.lookupFails ["a1"; "a2"; "a3"] in
  omap lookup_failure (trace r) = [MoreSamples.notFound] /\
  outcome r = Throw MoreSamples.notFound /\
  omap delete_request (trace r) = [] /\
  omap delete_job (trace r) = [].
Proof.
  split; [reflexivity|].
  apply (deleteAsset_lookup_failure_aborts (Script.delete_handler MoreSamples.lookupFails)
           Sample.u1 (DeleteAssetDto.mk ["a1"; "a2"; "a3"]) tt).
  apply list_elem_of_here.
Defined.

Lemma deleteAsset_failure_schedules_nothing_witness :
  let r := MoreSamples.delete MoreSamples.deleteFails ["a1"; "a2"] in
  omap found (trace r) = [Sample.stored1; MoreSamples.stored2] /\
  outcome r = Throw Sample.dbDown /\
  omap delete_job (trace r) = [] /\
  files_scheduled (trace r) = [].
Proof.
  split; [reflexivity|].
  apply (deleteAsset_failure_schedules_nothing
           (Script.delete_handler MoreSamples.deleteFails)
           Sample.u1 (DeleteAssetDto.mk ["a1"; "a2"]) tt).
  reflexivity.
Defined.

Lemma deleteAsset_no_ids_witness :
  let r := MoreSamples.delete MoreSamples.deletes [] in
  outcome r = Ok [] /\
  omap lookup_asked (trace r) = [] /\
  omap delete_request (trace r) = [(Sample.u1, DeleteAssetDto.mk [])] /\
  omap delete_job (trace r) = [[]].
Proof.
  destruct (deleteAsset_no_ids (Script.delete_handler MoreSamples.deletes)
              Sample.u1 (DeleteAssetDto.mk []) tt eq_refl) as (Hl & Hd & Hj).
  split; [reflexivity|]. split; [exact Hl|]. split; [exact Hd|].
  exact (Hj [] eq_refl).
Defined.
